(** * A particle filter for pose estimation: embedding and properties

    Shallow embedding of the estimation core of the SIR particle filter
    ([particle_filter_base.py], [particle_filter_sir.py],
    [particle_filter_nepr.py], [particle_filter_max_weight_resampling.py]
    and [resampling_algos.py]), of the simulated robot and world
    ([simulator/robot.py], [simulator/world.py]) and of the loop of
    [demo.py].

    The Python code computes on binary64 numbers.  Every function is
    translated once, over an interface [Arith] of the arithmetic it uses,
    and the interface has two instances:
    - [Binary64.arith]: the kernel's primitive floats, the arithmetic the
      program runs on; every definition evaluates there;
    - [Exact.arith]: the real numbers, the arithmetic the algorithm is
      designed in.
    Python exceptions are values of [result]; the random source is an
    interface [RandomSource] whose state is threaded explicitly.

    The properties come in three groups: those proved for every
    arithmetic, those proved over the real numbers, and the program run on
    binary64 numbers, where rounding and overflow show. *)

From Stdlib Require Import Floats.
From Stdlib Require Import ZArith List Bool String Lia.
From Stdlib Require Import Reals Lra.
Import ListNotations.

Set Implicit Arguments.

(** ** Exceptions *)

Inductive exn : Type :=
| ZeroDivisionError
| IndexError
| TypeError.

Inductive result (A : Type) : Type :=
| Ok (a : A)
| Raise (e : exn).

Arguments Ok {A} a.
Arguments Raise {A} e.

Definition bind {A B : Type} (r : result A) (k : A -> result B) : result B :=
  match r with
  | Ok a => k a
  | Raise e => Raise e
  end.

Declare Scope py_scope.
Delimit Scope py_scope with py.
Notation "x <- r ;; k" := (bind r (fun x => k))
  (at level 61, r at next level, right associativity) : py_scope.

(** ** The arithmetic of the program *)

Class Arith (F : Type) : Type := {
  (** the decimal literal whose exact value is [n / d] *)
  lit : Z -> Z -> F;
  (** [float(n)] for a Python integer [n] *)
  of_int : Z -> F;
  fadd : F -> F -> F;
  fsub : F -> F -> F;
  fmul : F -> F -> F;
  fdiv : F -> F -> F;
  fopp : F -> F;
  fltb : F -> F -> bool;
  feqb : F -> F -> bool;
  np_mod : F -> F -> F;
  np_sqrt : F -> F;
  np_pi : F;
  feqb_zero : feqb (of_int 0) (of_int 0) = true
}.

(** The functions of numpy that the primitive floats do not provide. *)
Class Elementary (F : Type) : Type := {
  np_exp : F -> F;
  np_cos : F -> F;
  np_sin : F -> F;
  np_arctan2 : F -> F -> F
}.

Declare Scope num_scope.
Delimit Scope num_scope with num.
Notation "a + b" := (fadd a b) : num_scope.
Notation "a - b" := (fsub a b) : num_scope.
Notation "a * b" := (fmul a b) : num_scope.
Notation "a / b" := (fdiv a b) : num_scope.
Notation "- a" := (fopp a) : num_scope.
Notation "a <? b" := (fltb a b) : num_scope.
Notation "a =? b" := (feqb a b) : num_scope.

(** ** Binary64: the arithmetic the program runs on *)

Module Binary64.

Definition of_Z (z : Z) : float :=
  SF2Prim (binary_normalize prec emax z 0 false).

(** C's [fmod]: the exact remainder of [a / b], with the sign of [a]. *)
Definition fmod (a b : float) : float :=
  match Prim2SF a, Prim2SF b with
  | S754_nan, _ | _, S754_nan => nan
  | S754_infinity _, _ => nan
  | _, S754_zero _ => nan
  | S754_zero _, _ => a
  | S754_finite _ _ _, S754_infinity _ => a
  | S754_finite sa ma ea, S754_finite _ mb eb =>
      let e := Z.min ea eb in
      let r := ((Zpos ma * 2 ^ (ea - e)) mod (Zpos mb * 2 ^ (eb - e)))%Z in
      SF2Prim (binary_normalize prec emax (cond_Zopp sa r) e sa)
  end.

(** numpy's remainder ([npy_divmod]): the sign of the result follows the
    divisor [b]. *)
Definition remainder (a b : float) : float :=
  let m := fmod a b in
  if PrimFloat.eqb b 0 then m
  else if PrimFloat.eqb m 0 then (if PrimFloat.ltb b 0 then (-0)%float else 0%float)
  else if Bool.eqb (PrimFloat.ltb b 0) (PrimFloat.ltb m 0) then m
  else (m + b)%float.

(** A number that is neither a NaN nor an infinity. *)
Definition finite (x : float) : Prop :=
  match Prim2SF x with
  | S754_zero _ | S754_finite _ _ _ => True
  | S754_infinity _ | S754_nan => False
  end.

#[global] Instance arith : Arith float := {
  lit n d := PrimFloat.div (of_Z n) (of_Z d);
  of_int := of_Z;
  fadd := PrimFloat.add;
  fsub := PrimFloat.sub;
  fmul := PrimFloat.mul;
  fdiv := PrimFloat.div;
  fopp := PrimFloat.opp;
  fltb := PrimFloat.ltb;
  feqb := PrimFloat.eqb;
  np_mod := remainder;
  np_sqrt := PrimFloat.sqrt;
  np_pi := 0x1.921fb54442d18p+1%float;
  feqb_zero := eq_refl
}.

End Binary64.


(** ** Exact arithmetic: the real numbers *)

Module Exact.

Definition ltb (a b : R) : bool := if Rlt_dec a b then true else false.
Definition eqb (a b : R) : bool := if Req_dec_T a b then true else false.

(** [a - floor (a / b) * b]; numpy's value for [b = 0] is a NaN, which
    the reals do not have. *)
Definition remainder (a b : R) : R := (a - IZR (Int_part (a / b)) * b)%R.

(** The angle of the point [(dx, dy)], in [(-PI, PI]]; [0] at the origin,
    as numpy has it. *)
Definition arctan2 (dy dx : R) : R :=
  if Rlt_dec 0 dx then atan (dy / dx)
  else if Rlt_dec dx 0 then
    (if Rlt_dec dy 0 then atan (dy / dx) - PI else atan (dy / dx) + PI)%R
  else if Rlt_dec 0 dy then (PI / 2)%R
  else if Rlt_dec dy 0 then (- (PI / 2))%R
  else 0%R.

Definition eqb_zero : eqb (IZR 0) (IZR 0) = true :=
  match Req_dec_T (IZR 0) (IZR 0) as d
        return ((if d then true else false) = true) with
  | left _ => eq_refl
  | right n => False_ind _ (n eq_refl)
  end.

#[global] Instance arith : Arith R := {
  lit n d := (IZR n / IZR d)%R;
  of_int := IZR;
  fadd := Rplus;
  fsub := Rminus;
  fmul := Rmult;
  fdiv := Rdiv;
  fopp := Ropp;
  fltb := ltb;
  feqb := eqb;
  np_mod := remainder;
  np_sqrt := sqrt;
  np_pi := PI;
  feqb_zero := eqb_zero
}.

#[global] Instance elementary : Elementary R := {
  np_exp := exp;
  np_cos := cos;
  np_sin := sin;
  np_arctan2 := arctan2
}.

End Exact.

(** ** The random source

    [np.random] is a module-level generator; its state [G] is threaded
    through every function that draws. *)

Class RandomSource (F G : Type) : Type := {
  (** [np.random.uniform(low, high, 1)[0]] *)
  uniform : F -> F -> G -> F * G;
  (** [np.random.normal(loc, scale, 1)[0]] *)
  normal : F -> F -> G -> F * G;
  (** [np.random.multivariate_normal(mean, cov, 1)[0]] for a mean of three
      components and a diagonal covariance given by its diagonal *)
  multivariate_normal : F * F * F -> F * F * F -> G -> (F * F * F) * G
}.

(** ** The program *)

Section Program.

Context {F : Type} {A : Arith F} {E : Elementary F}.
Context {G : Type} {RS : RandomSource F G}.

Local Open Scope num_scope.
Local Open Scope py_scope.

(** The literals [0] and [0.0], [1] and [1.0]: Python converts the
    integer to a float wherever the program mixes the two. *)
Definition zero : F := of_int 0.
Definition one : F := of_int 1.

(** [x ** 2]: the product [x * x].  Over the real numbers the two are
    the same.  On binary64 the product is the correctly rounded square;
    Python computes the power with the platform's [pow], which returns
    that value for most arguments but not for all, and squaring a Python
    float beyond the range raises [OverflowError] where the product is
    [inf]. *)
Definition sqr (x : F) : F := x * x.

(** [a / b] on Python floats: a zero divisor raises. *)
Definition py_div (a b : F) : result F :=
  if b =? zero then Raise ZeroDivisionError else Ok (a / b).

(** [a / n] for a Python integer [n]. *)
Definition py_div_int (a : F) (n : Z) : result F :=
  if (n =? 0)%Z then Raise ZeroDivisionError else Ok (a / of_int n).

(** [max(a, b)]: the first argument unless the second is greater. *)
Definition py_max (a b : F) : F := if a <? b then b else a.

(** [l[i]] *)
Definition index {T : Type} (l : list T) (i : nat) : result T :=
  match nth_error l i with
  | Some v => Ok v
  | None => Raise IndexError
  end.

(** A list comprehension whose element expression may raise. *)
Fixpoint comprehension {T U : Type} (f : T -> result U) (l : list T)
  : result (list U) :=
  match l with
  | [] => Ok []
  | v :: l' => w <- f v ;; r <- comprehension f l' ;; Ok (w :: r)
  end.

(** *** Data *)

(** A state [[x, y, heading]]. *)
Record state : Type := State { st_x : F; st_y : F; st_theta : F }.

(** A particle [[weight, state]]. *)
Local Abbreviation particle := (F * state)%type.

(** The subclass of the filter object decides the resampling scheme. *)
Inductive filter_class : Type :=
| ParticleFilterSIR
| ParticleFilterNEPR (number_of_effective_particles_threshold : F)
| ParticleFilterMWR (resampling_threshold : F).

(** The attributes of a filter object; [particles] is [None] when the
    attribute holds Python's [None]. *)
Record ParticleFilter : Type := {
  n_particles : Z;
  x_min : F;
  x_max : F;
  y_min : F;
  y_max : F;
  process_noise : F * F;
  measurement_noise : F * F;
  resampling_algorithm : string;
  class : filter_class;
  particles : option (list particle)
}.

Definition set_particles (self : ParticleFilter)
    (ps : option (list particle)) : ParticleFilter :=
  {| n_particles := n_particles self;
     x_min := x_min self; x_max := x_max self;
     y_min := y_min self; y_max := y_max self;
     process_noise := process_noise self;
     measurement_noise := measurement_noise self;
     resampling_algorithm := resampling_algorithm self;
     class := class self;
     particles := ps |}.

(** *** particle_filter_base.py *)

Fixpoint initialize_unknown_loop (self : ParticleFilter) (weight : F)
    (k : nat) (ps : list particle) (g : G) : list particle * G :=
  match k with
  | O => (ps, g)
  | S k' =>
      let (x, g1) := uniform (x_min self) (x_max self) g in
      let (y, g2) := uniform (y_min self) (y_max self) g1 in
      let (theta, g3) := uniform (of_int 0) (of_int 2 * np_pi) g2 in
      initialize_unknown_loop self weight k'
        (ps ++ [(weight, {| st_x := x; st_y := y; st_theta := theta |})]) g3
  end.

Definition particle_initialize_uniform_original_state_unknown
    (self : ParticleFilter) (g : G) : result ParticleFilter * G :=
  match py_div_int one (n_particles self) with
  | Raise e => (Raise e, g)
  | Ok weight =>
      let (ps, g') :=
        initialize_unknown_loop self weight (Z.to_nat (n_particles self)) [] g in
      (Ok (set_particles self (Some ps)), g')
  end.

(** [robot] stands for the three attributes [x], [y], [theta] read from
    the robot object. *)
Definition particle_initialize_uniform_original_state_known
    (self : ParticleFilter) (robot : state) : result ParticleFilter :=
  weight <- py_div_int one (n_particles self) ;;
  Ok (set_particles self
        (Some (repeat (weight, robot) (Z.to_nat (n_particles self))))).

Definition validate_state (self : ParticleFilter) (s : state) : state :=
  {| st_x := np_mod (st_x s) (x_max self);
     st_y := np_mod (st_y s) (y_max self);
     st_theta := np_mod (st_theta s) (of_int 2 * np_pi) |}.

(** One turn of the loop of [get_average_state]. *)
Definition add_weighted (avg : state) (weighted_sample : particle) : state :=
  {| st_x := st_x avg + fst weighted_sample * st_x (snd weighted_sample);
     st_y := st_y avg + fst weighted_sample * st_y (snd weighted_sample);
     st_theta :=
       st_theta avg + fst weighted_sample * st_theta (snd weighted_sample) |}.

Definition average_state (ps : list particle) : state :=
  fold_left add_weighted ps {| st_x := zero; st_y := zero; st_theta := zero |}.

Definition get_average_state (self : ParticleFilter) : result state :=
  match particles self with
  | Some ps => Ok (average_state ps)
  | None => Raise TypeError
  end.

Definition sum_weights (weighted_samples : list particle) : F :=
  fold_left (fun s weighted_sample => s + fst weighted_sample)
    weighted_samples zero.

Definition normalize_weights (weighted_samples : list particle)
  : result (list particle) :=
  let s := sum_weights weighted_samples in
  if s <? lit 1 10000000 then
    comprehension
      (fun weighted_sample =>
         w <- py_div_int one (Z.of_nat (List.length weighted_samples)) ;;
         Ok (w, snd weighted_sample))
      weighted_samples
  else
    comprehension
      (fun weighted_sample =>
         w <- py_div (fst weighted_sample) s ;;
         Ok (w, snd weighted_sample))
      weighted_samples.

(** The independent-noise form of the process model. *)
Definition propagate_sample (self : ParticleFilter) (sample : state)
    (desired_distance desired_rotation : F) (g : G) : state * G :=
  let (forward_displacement, g1) :=
    normal desired_distance (fst (process_noise self)) g in
  let x := st_x sample + forward_displacement * np_cos (st_theta sample) in
  let y := st_y sample + forward_displacement * np_sin (st_theta sample) in
  let (turn, g2) := normal desired_rotation (snd (process_noise self)) g1 in
  (validate_state self
     {| st_x := x; st_y := y; st_theta := st_theta sample + turn |}, g2).

(** The joint-Gaussian form of the process model. *)
Definition propagate_sample_Q (self : ParticleFilter) (sample : state)
    (desired_distance desired_rotation : F) (Q : F * F * F) (g : G)
  : state * G :=
  let '(Q0, Q1, Q2) := Q in
  let mean :=
    (st_x sample + desired_distance * np_cos (st_theta sample),
     st_y sample + desired_distance * np_sin (st_theta sample),
     st_theta sample + desired_rotation) in
  let cov := (sqr Q0, sqr Q1, sqr Q2) in
  let '((m0, m1, m2), g1) := multivariate_normal mean cov g in
  (validate_state self {| st_x := m0; st_y := m1; st_theta := m2 |}, g1).

Fixpoint likelihood_loop (self : ParticleFilter) (sample : state)
    (measurement : list (F * F)) (landmarks : list (F * F)) (i : nat)
    (likelihood_sample : F) : result F :=
  match landmarks with
  | [] => Ok likelihood_sample
  | lm :: rest =>
      let dx := st_x sample - fst lm in
      let dy := st_y sample - snd lm in
      let expected_distance := np_sqrt (dx * dx + dy * dy) in
      let expected_angle := np_arctan2 dy dx in
      z <- index measurement i ;;
      let p_z_given_expected_distance :=
        np_exp (- sqr (fst z - expected_distance)
                / (of_int 2 * sqr (fst (measurement_noise self)))) in
      let p_z_given_expected_angle :=
        np_exp (- sqr (snd z - expected_angle)
                / (of_int 2 * sqr (snd (measurement_noise self)))) in
      likelihood_loop self sample measurement rest (S i)
        (likelihood_sample
         * (p_z_given_expected_distance * p_z_given_expected_angle))
  end.

Definition compute_likelihood (self : ParticleFilter) (sample : state)
    (measurement : list (F * F)) (landmarks : list (F * F)) : result F :=
  likelihood_loop self sample measurement landmarks 0 one.

(** *** resampling_algos.py *)

(** The random source may raise nothing, the search may: a computation
    that draws returns a result and the state of the generator. *)
Definition rand (T : Type) : Type := G -> result T * G.

Definition ret {T : Type} (v : T) : rand T := fun g => (Ok v, g).

Definition lift {T : Type} (r : result T) : rand T := fun g => (r, g).

Definition draw (d : G -> F * G) : rand F :=
  fun g => let (u, g') := d g in (Ok u, g').

Definition bind_rand {T U : Type} (m : rand T) (k : T -> rand U) : rand U :=
  fun g =>
    match m g with
    | (Ok v, g') => k v g'
    | (Raise e, g') => (Raise e, g')
    end.

Notation "x <~ m ;; k" := (bind_rand m (fun x => k))
  (at level 61, m at next level, right associativity).

(** [np.cumsum]: the running sums, accumulated from left to right. *)
Fixpoint cumsum_from (acc : F) (weights : list F) : list F :=
  match weights with
  | [] => []
  | w :: rest => (acc + w) :: cumsum_from (acc + w) rest
  end.

Definition cumsum (weights : list F) : list F :=
  match weights with
  | [] => []
  | w :: rest => w :: cumsum_from w rest
  end.

(** [while cumulative_list[m] < x: m += 1], on the part of the list from
    index [m] on; reading past the end raises. *)
Fixpoint naive_search_from (cumulative_list : list F) (x : F) (m : nat)
  : result nat :=
  match cumulative_list with
  | [] => Raise IndexError
  | q :: rest => if q <? x then naive_search_from rest x (S m) else Ok m
  end.

Definition naive_search (cumulative_list : list F) (x : F) : result nat :=
  naive_search_from cumulative_list x 0.

(** [for _ in range(N)], [k] iterations to go.  [N >= 1] inside the
    loop, so [1.0/N] does not raise. *)
Fixpoint multinomial_loop (samples : list particle) (Q : list F) (N : Z)
    (k : nat) (new_samples : list particle) : rand (list particle) :=
  match k with
  | O => ret new_samples
  | S k' =>
      u <~ draw (uniform (lit 1 10000000000) (of_int 1)) ;;
      m <~ lift (naive_search Q u) ;;
      p <~ lift (index samples m) ;;
      multinomial_loop samples Q N k'
        (new_samples ++ [(one / of_int N, snd p)])
  end.

Definition multinomial (samples : list particle) (N : Z)
  : rand (list particle) :=
  let weights := map fst samples in
  let Q := cumsum weights in
  multinomial_loop samples Q N (Z.to_nat N) [].

(** [while n < N], [k = N - n] iterations to go. *)
Fixpoint stratified_loop (samples : list particle) (Q : list F) (N : Z)
    (k : nat) (n : Z) (new_samples : list particle) : rand (list particle) :=
  match k with
  | O => ret new_samples
  | S k' =>
      u0 <~ draw (uniform (lit 1 10000000000) (one / of_int N)) ;;
      let u := u0 + of_int n * of_int 1 / of_int N in
      m <~ lift (naive_search Q u) ;;
      p <~ lift (index samples m) ;;
      stratified_loop samples Q N k' (n + 1)
        (new_samples ++ [(one / of_int N, snd p)])
  end.

Definition stratified (samples : list particle) (N : Z)
  : rand (list particle) :=
  let weights := map fst samples in
  let Q := cumsum weights in
  stratified_loop samples Q N (Z.to_nat N) 0 [].

(** Any other name of an algorithm falls through: the function returns
    [None]. *)
Definition resample (samples : list particle) (N : Z) (algorithm : string)
  : rand (option (list particle)) :=
  if String.eqb algorithm "MULTINOMIAL" then
    r <~ multinomial samples N ;; ret (Some r)
  else if String.eqb algorithm "STRATIFIED" then
    r <~ stratified samples N ;; ret (Some r)
  else ret None.

(** *** particle_filter_sir.py, particle_filter_nepr.py,
        particle_filter_max_weight_resampling.py *)

Definition SIR_needs_resampling : result bool := Ok true.

(** The weights are Python floats after an initialisation, a
    reinitialisation and a resampling: the division is Python's.  The
    weights [normalize_weights] returns from its division are numpy numbers:
    should their squares sum to [0.0], numpy's division gives [inf] with a
    warning and the answer is [False]; over the real numbers weights of sum
    1 have a positive sum of squares. *)
Definition NEPR_needs_resampling (resampling_threshold : F)
    (ps : list particle) : result bool :=
  let sum_weights_squared :=
    fold_left (fun s par => s + sqr (fst par)) ps zero in
  r <- py_div one sum_weights_squared ;;
  Ok (r <? resampling_threshold).

Definition MWR_needs_resampling (resampling_threshold : F)
    (ps : list particle) : result bool :=
  let max_weight := fold_left (fun m par => py_max m (fst par)) ps zero in
  r <- py_div one max_weight ;;
  Ok (r <? resampling_threshold).

(** [self.needs_resampling()], dispatched on the class of [self]. *)
Definition needs_resampling (self : ParticleFilter) : result bool :=
  match particles self with
  | None => match class self with
            | ParticleFilterSIR => SIR_needs_resampling
            | _ => Raise TypeError
            end
  | Some ps =>
      match class self with
      | ParticleFilterSIR => SIR_needs_resampling
      | ParticleFilterNEPR t => NEPR_needs_resampling t ps
      | ParticleFilterMWR t => MWR_needs_resampling t ps
      end
  end.

(** The loop over the particles of [ParticleFilterSIR.update]. *)
Fixpoint update_loop (self : ParticleFilter) (ps : list particle)
    (robot_forward_motion robot_angular_motion : F)
    (measurements landmarks : list (F * F)) (new_particles : list particle)
  : rand (list particle) :=
  match ps with
  | [] => ret new_particles
  | par :: rest =>
      propagated_state <~
        (fun g =>
           let (s, g') :=
             propagate_sample_Q self (snd par) robot_forward_motion
               robot_angular_motion (lit 7 100, lit 7 100, lit 1 10) g in
           (Ok s, g')) ;;
      l <~ lift (compute_likelihood self propagated_state measurements
                   landmarks) ;;
      let weight := fst par * l in
      update_loop self rest robot_forward_motion robot_angular_motion
        measurements landmarks (new_particles ++ [(weight, propagated_state)])
  end.

(** [ParticleFilterSIR.update], inherited by the two other classes: the
    filter object after the call. *)
Definition update (self : ParticleFilter)
    (robot_forward_motion robot_angular_motion : F)
    (measurements landmarks : list (F * F)) : rand ParticleFilter :=
  ps <~ lift (match particles self with
              | Some ps => Ok ps
              | None => Raise TypeError
              end) ;;
  new_particles <~
    update_loop self ps robot_forward_motion robot_angular_motion
      measurements landmarks [] ;;
  normalized <~ lift (normalize_weights new_particles) ;;
  let self1 := set_particles self (Some normalized) in
  b <~ lift (needs_resampling self1) ;;
  if b : bool then
    r <~ resample normalized (n_particles self1)
           (resampling_algorithm self1) ;;
    ret (set_particles self1 r)
  else ret self1.

(** *** Filters that differ in one attribute, and what a resampled particle is *)

Definition set_process_noise (self : ParticleFilter) (pn : F * F)
  : ParticleFilter :=
  {| n_particles := n_particles self;
     x_min := x_min self; x_max := x_max self;
     y_min := y_min self; y_max := y_max self;
     process_noise := pn;
     measurement_noise := measurement_noise self;
     resampling_algorithm := resampling_algorithm self;
     class := class self;
     particles := particles self |}.

Definition result_map {T U : Type} (f : T -> U) (r : result T) : result U :=
  match r with
  | Ok v => Ok (f v)
  | Raise e => Raise e
  end.

Definition set_lower_limits (self : ParticleFilter) (xmin ymin : F)
  : ParticleFilter :=
  {| n_particles := n_particles self;
     x_min := xmin; x_max := x_max self;
     y_min := ymin; y_max := y_max self;
     process_noise := process_noise self;
     measurement_noise := measurement_noise self;
     resampling_algorithm := resampling_algorithm self;
     class := class self;
     particles := particles self |}.

Definition set_measurement_noise (self : ParticleFilter) (mn : F * F)
  : ParticleFilter :=
  {| n_particles := n_particles self;
     x_min := x_min self; x_max := x_max self;
     y_min := y_min self; y_max := y_max self;
     process_noise := process_noise self;
     measurement_noise := mn;
     resampling_algorithm := resampling_algorithm self;
     class := class self;
     particles := particles self |}.

Definition with_class (self : ParticleFilter) (c : filter_class)
  : ParticleFilter :=
  {| n_particles := n_particles self;
     x_min := x_min self; x_max := x_max self;
     y_min := y_min self; y_max := y_max self;
     process_noise := process_noise self;
     measurement_noise := measurement_noise self;
     resampling_algorithm := resampling_algorithm self;
     class := c;
     particles := particles self |}.

(** A particle of a resampled set: the weight [1.0 / N] and the state of
    one of the particles of [samples]. *)
Definition resampled (samples : list particle) (N : Z) (p : particle) : Prop :=
  fst p = one / of_int N /\ In (snd p) (map snd samples).

(** *** demo.py *)

(** The filter of the demonstration, before its particles are drawn. *)
Definition demo_filter : ParticleFilter :=
  {| n_particles := 3000;
     x_min := of_int 0; x_max := lit 20 1;
     y_min := of_int 0; y_max := lit 20 1;
     process_noise := (lit 1 10, lit 2 10);
     measurement_noise := (lit 2 10, lit 1 10);
     resampling_algorithm := "STRATIFIED";
     class := ParticleFilterMWR (of_int 1 / lit 5 1000);
     particles := None |}.

Definition origin : state :=
  {| st_x := zero; st_y := zero; st_theta := zero |}.

Definition unit_state : state :=
  {| st_x := one; st_y := one; st_theta := one |}.

(** [n] particles with the weight [1.0 / n] and the state [s]. *)
Definition uniform_particles (n : nat) (s : state) : list particle :=
  repeat (one / of_int (Z.of_nat n), s) n.

End Program.

Arguments state F : clear implicits.
Abbreviation particle F := (F * state F)%type.
Arguments filter_class F : clear implicits.
Arguments ParticleFilter F : clear implicits.

(** ** The simulator: simulator/world.py and simulator/robot.py *)

Section Simulator.

Context {F : Type} {A : Arith F} {E : Elementary F}.
Context {G : Type} {RS : RandomSource F G}.

Local Open Scope num_scope.

(** The values [World] may receive as landmarks: numbers and lists. *)
#[warnings="-register-all"]
Inductive pyval : Type :=
| PyNumber (x : F)
| PyList (items : list pyval).

(** [isinstance(v, list)] *)
Definition is_list (v : pyval) : bool :=
  match v with
  | PyList _ => true
  | PyNumber _ => false
  end.

(** [len(v)], asked of lists only. *)
Definition py_len (v : pyval) : nat :=
  match v with
  | PyList items => List.length items
  | PyNumber _ => 0
  end.

(** The attributes of a world; [landmarks] is [None] when the constructor
    leaves the attribute unset. *)
Record World : Type := {
  world_x_max : F;
  world_y_max : F;
  landmarks : option (list pyval)
}.

(** [World.__init__] *)
Definition World_init (size_x size_y : F) (lms : list pyval) : World :=
  {| world_x_max := size_x;
     world_y_max := size_y;
     landmarks :=
       if existsb (fun lm => negb (is_list lm)) lms then
         if negb (List.length lms =? 2)%nat then None
         else Some [PyList lms]
       else
         if existsb (fun lm => negb (py_len lm =? 2)%nat) lms then None
         else Some lms |}.

(** The attributes of a robot. *)
Record Robot : Type := {
  robot_x : F;
  robot_y : F;
  robot_theta : F;
  std_forward : F;
  std_turn : F;
  std_meas_distance : F;
  std_meas_angle : F
}.

(** The pose [(x, y, theta)] of a robot. *)
Definition robot_state (self : Robot) : state F :=
  {| st_x := robot_x self; st_y := robot_y self; st_theta := robot_theta self |}.

(** [Robot.move]: the robot after the move; [size_x], [size_y] are
    [world.x_max], [world.y_max]. *)
Definition move (self : Robot) (desired_distance desired_rotation : F)
    (size_x size_y : F) (g : G) : Robot * G :=
  let (distance_driven, g1) :=
    normal desired_distance (std_forward self) g in
  let x :=
    np_mod (robot_x self + distance_driven * np_cos (robot_theta self)) size_x in
  let y :=
    np_mod (robot_y self + distance_driven * np_sin (robot_theta self)) size_y in
  let (angle_rotated, g2) := normal desired_rotation (std_turn self) g1 in
  ({| robot_x := x;
      robot_y := y;
      robot_theta := np_mod (robot_theta self + angle_rotated) (of_int 2 * np_pi);
      std_forward := std_forward self;
      std_turn := std_turn self;
      std_meas_distance := std_meas_distance self;
      std_meas_angle := std_meas_angle self |}, g2).

(** What a robot at the pose [s] measures of the landmark [lm] without
    noise: the distance and the angle. *)
Definition expected_measurement (s : state F) (lm : F * F) : F * F :=
  let dx := st_x s - fst lm in
  let dy := st_y s - snd lm in
  (np_sqrt (dx * dx + dy * dy), np_arctan2 dy dx).

(** The loop of [Robot.measure] over the landmarks of a world whose
    landmarks are pairs of numbers. *)
Fixpoint measure_loop (self : Robot) (lms : list (F * F))
    (measurements : list (F * F)) (g : G) : list (F * F) * G :=
  match lms with
  | [] => (measurements, g)
  | lm :: rest =>
      let dx := robot_x self - fst lm in
      let dy := robot_y self - snd lm in
      let (z_distance, g1) :=
        normal (np_sqrt (dx * dx + dy * dy)) (std_meas_distance self) g in
      let (z_angle, g2) :=
        normal (np_arctan2 dy dx) (std_meas_angle self) g1 in
      measure_loop self rest (measurements ++ [(z_distance, z_angle)]) g2
  end.

(** [Robot.measure] *)
Definition measure (self : Robot) (lms : list (F * F)) (g : G)
  : list (F * F) * G :=
  measure_loop self lms [] g.

(** *** demo.py *)

(** One turn of the loop of the demonstration: the robot moves and
    measures, the filter is updated with the same motion and the
    measurement, and the estimate is read for the display. *)
Definition time_step (lms : list (F * F)) (size_x size_y : F)
    (robot : Robot) (particle_filter : ParticleFilter F)
    (robot_motion_distance robot_rotation_angles : F) (g : G)
  : result (Robot * ParticleFilter F * state F) * G :=
  let (robot', g1) :=
    move robot robot_motion_distance robot_rotation_angles size_x size_y g in
  let (measurements, g2) := measure robot' lms g1 in
  match update particle_filter robot_motion_distance robot_rotation_angles
          measurements lms g2 with
  | (Ok particle_filter', g3) =>
      match get_average_state particle_filter' with
      | Ok estimate => (Ok (robot', particle_filter', estimate), g3)
      | Raise e => (Raise e, g3)
      end
  | (Raise e, g3) => (Raise e, g3)
  end.

(** The loop over the time steps; [motions] holds the desired distance and
    rotation of each step, which the demonstration draws with Python's
    own generator, and [estimates] collects what is displayed. *)
Fixpoint simulate (lms : list (F * F)) (size_x size_y : F)
    (motions : list (F * F)) (robot : Robot)
    (particle_filter : ParticleFilter F) (estimates : list (state F)) (g : G)
  : result (Robot * ParticleFilter F * list (state F)) * G :=
  match motions with
  | [] => (Ok (robot, particle_filter, estimates), g)
  | (robot_motion_distance, robot_rotation_angles) :: rest =>
      match time_step lms size_x size_y robot particle_filter
              robot_motion_distance robot_rotation_angles g with
      | (Ok (robot', particle_filter', estimate), g') =>
          simulate lms size_x size_y rest robot' particle_filter'
            (estimates ++ [estimate]) g'
      | (Raise e, g') => (Raise e, g')
      end
  end.

End Simulator.

Arguments pyval F : clear implicits.
Arguments World F : clear implicits.
Arguments Robot F : clear implicits.

(** ** What the filter keeps from one cycle to the next *)

(** A state inside the cyclic world of a filter. *)
Definition in_world (self : ParticleFilter R) (s : state R) : Prop :=
  (0 <= st_x s < x_max self)%R
  /\ (0 <= st_y s < y_max self)%R
  /\ (0 <= st_theta s < 2 * PI)%R.

(** A particle set that is not empty, whose weights are not negative and
    sum to 1, and whose states are inside the world. *)
Definition well_formed (self : ParticleFilter R) (ps : list (particle R))
  : Prop :=
  ps <> []
  /\ sum_weights ps = 1%R
  /\ Forall (fun p => (0 <= fst p)%R /\ in_world self (snd p)) ps.

(** The sum of the squared weights and the greatest weight, as the
    triggers accumulate them before they divide. *)
Definition sum_weights_squared {F : Type} {A : Arith F}
    (ps : list (particle F)) : F :=
  fold_left (fun s par => fadd s (sqr (fst par))) ps zero.

Definition max_weight {F : Type} {A : Arith F} (ps : list (particle F)) : F :=
  fold_left (fun m par => py_max m (fst par)) ps zero.

(** Two filters with the same attributes, the particles apart. *)
Definition same_configuration {F : Type} (a b : ParticleFilter F) : Prop :=
  n_particles a = n_particles b
  /\ x_min a = x_min b /\ x_max a = x_max b
  /\ y_min a = y_min b /\ y_max a = y_max b
  /\ process_noise a = process_noise b
  /\ measurement_noise a = measurement_noise b
  /\ resampling_algorithm a = resampling_algorithm b
  /\ class a = class b.

(** The names of the two algorithms of [resample]. *)
Definition known_algorithm (name : string) : Prop :=
  name = "MULTINOMIAL"%string \/ name = "STRATIFIED"%string.

(** A source without noise: [normal] returns its mean. *)
Definition noiseless_source : RandomSource R unit :=
  {| uniform := fun lo hi g => (lo, g);
     normal := fun mu sigma g => (mu, g);
     multivariate_normal := fun mean cov g => (mean, g) |}.

(** ** Random sources to run the program on *)

(** The draws are read off a list; the lower end or the mean once the list
    is used up. *)
#[global] Instance replay_source : RandomSource float (list float) := {
  uniform lo hi g := match g with u :: g' => (u, g') | [] => (lo, []) end;
  normal mu sigma g := match g with u :: g' => (u, g') | [] => (mu, []) end;
  multivariate_normal mean cov g := (mean, g)
}.

(** Every draw is the lower end of the interval asked for. *)
#[global] Instance lower_end_source : RandomSource float unit := {
  uniform lo hi g := (lo, g);
  normal mu sigma g := (mu, g);
  multivariate_normal mean cov g := (mean, g)
}.

(** Every draw is the middle of the interval asked for. *)
#[global] Instance midpoint_source : RandomSource R unit := {
  uniform lo hi g :=
    ((if Rlt_dec lo hi then (lo + hi) / 2 else hi - 1)%R, g);
  normal mu sigma g := (mu, g);
  multivariate_normal mean cov g := (mean, g)
}.

(** The inputs of the demonstration as binary64 values. *)
Definition demo64 : ParticleFilter float := demo_filter.
Definition origin64 : state float := origin.
Definition unit64 : state float := unit_state.

(** * Properties that hold in every arithmetic *)

Section Generic.

Context {F : Type} {A : Arith F}.
Context {G : Type} {RS : RandomSource F G}.

Local Open Scope num_scope.

Implicit Types (ws ps : list (particle F)) (Q : list F) (x : F).

Lemma comprehension_total {T U : Type} (f : T -> U) (l : list T) :
  comprehension (fun v => Ok (f v)) l = Ok (map f l).
Proof.
  induction l as [|v l IH]; simpl; [reflexivity|].
  rewrite IH. reflexivity.
Qed.

(** *** [naive_search] *)

Lemma naive_search_from_found Q x : forall m,
  Exists (fun q => (q <? x) = false) Q ->
  exists i q,
    naive_search_from Q x m = Ok (m + i)%nat
    /\ nth_error Q i = Some q /\ (q <? x) = false
    /\ forall j q', (j < i)%nat -> nth_error Q j = Some q' -> (q' <? x) = true.
Proof.
  induction Q as [|q0 Q IH]; intros m HE.
  - inversion HE.
  - simpl. destruct (q0 <? x) eqn:Hq.
    + assert (HE' : Exists (fun q => (q <? x) = false) Q).
      { inversion HE; subst; [congruence | assumption]. }
      destruct (IH (S m) HE') as (i & q & Hs & Hn & Hlt & Hmin).
      exists (S i), q. repeat split; try assumption.
      * rewrite Hs. f_equal. lia.
      * intros [|j] q' Hj Hq'; simpl in Hq'.
        -- congruence.
        -- apply (Hmin j); [lia | assumption].
    + exists 0%nat, q0. repeat split; try assumption.
      * f_equal. lia.
      * intros j q' Hj. lia.
Qed.

Lemma naive_search_from_past_end Q x : forall m,
  Forall (fun q => (q <? x) = true) Q ->
  naive_search_from Q x m = Raise IndexError.
Proof.
  induction Q as [|q0 Q IH]; intros m HF; simpl; [reflexivity|].
  inversion HF as [|? ? Hq HQ]; subst. rewrite Hq. apply IH, HQ.
Qed.

Lemma naive_search_from_bound Q x : forall m r,
  naive_search_from Q x m = Ok r -> (m <= r < m + List.length Q)%nat.
Proof.
  induction Q as [|q0 Q IH]; intros m r H; simpl in *; [discriminate|].
  destruct (q0 <? x).
  - apply IH in H. lia.
  - inversion H; subst. lia.
Qed.

Lemma cumsum_from_length (acc : F) (l : list F) :
  List.length (cumsum_from acc l) = List.length l.
Proof.
  revert acc. induction l as [|w l IH]; intros acc; simpl; [reflexivity|].
  now rewrite IH.
Qed.

Lemma cumsum_length (l : list F) : List.length (cumsum l) = List.length l.
Proof. destruct l; simpl; [reflexivity|]. now rewrite cumsum_from_length. Qed.

Lemma index_In (samples : list (particle F)) (m : nat) (p : particle F) :
  index samples m = Ok p -> In (snd p) (map snd samples).
Proof.
  unfold index. destruct (nth_error samples m) as [p'|] eqn:Hp; [|discriminate].
  intros [= <-]. apply in_map. eapply nth_error_In, Hp.
Qed.

(** A search that meets an element not below [x] ends at the index of a
    particle. *)
Lemma search_in_bounds (samples : list (particle F)) Q x :
  List.length Q = List.length samples ->
  Exists (fun q => (q <? x) = false) Q ->
  exists (m : nat) (p : particle F),
    naive_search Q x = Ok m /\ index samples m = Ok p.
Proof.
  intros Hlen HE.
  destruct (naive_search_from_found x 0 HE) as (i & q & Hs & _).
  pose proof (naive_search_from_bound _ _ _ Hs) as Hb.
  destruct (nth_error samples i) as [p|] eqn:Hp.
  - exists i, p. split; [exact Hs|]. unfold index. now rewrite Hp.
  - apply nth_error_None in Hp. lia.
Qed.

(** When no draw is above every cumulative weight the loops run to their
    end, adding one resampled particle at each turn. *)
Lemma multinomial_loop_in_bounds (samples : list (particle F)) Q (N : Z) :
  List.length Q = List.length samples ->
  (forall g : G,
      Exists (fun q => (q <? fst (uniform (lit 1 10000000000) (of_int 1) g))
                       = false) Q) ->
  forall (k : nat) (acc : list (particle F)) (g : G),
    Forall (resampled samples N) acc ->
    exists (out : list (particle F)) (g' : G),
      multinomial_loop samples Q N k acc g = (Ok out, g')
      /\ List.length out = (List.length acc + k)%nat
      /\ Forall (resampled samples N) out.
Proof.
  intros Hlen Hdraw. induction k as [|k IH]; intros acc g Hacc.
  - exists acc, g. split; [reflexivity|]. split; [lia | assumption].
  - cbn [multinomial_loop]. unfold bind_rand, draw, lift.
    pose proof (Hdraw g) as Hg.
    destruct (uniform (lit 1 10000000000) (of_int 1) g) as [u g1].
    cbn [fst] in Hg.
    destruct (@search_in_bounds samples Q u Hlen Hg) as (m & p & Hs & Hp).
    rewrite Hs, Hp.
    destruct (IH (acc ++ [(one / of_int N, snd p)]) g1)
      as (out & g' & Hrun & Hout_len & Hout).
    { apply Forall_app. split; [assumption|]. constructor; [|constructor].
      split; [reflexivity | cbn [snd]; eapply index_In, Hp]. }
    exists out, g'. split; [exact Hrun|]. split; [|assumption].
    rewrite Hout_len, length_app. simpl. lia.
Qed.

Lemma stratified_loop_in_bounds (samples : list (particle F)) Q (N : Z) :
  List.length Q = List.length samples ->
  forall (k : nat) (n : Z) (acc : list (particle F)) (g : G),
    (forall (i : Z) (g0 : G),
        (n <= i < n + Z.of_nat k)%Z ->
        Exists
          (fun q =>
             (q <? fst (uniform (lit 1 10000000000) (one / of_int N) g0)
                   + of_int i * of_int 1 / of_int N) = false) Q) ->
    Forall (resampled samples N) acc ->
    exists (out : list (particle F)) (g' : G),
      stratified_loop samples Q N k n acc g = (Ok out, g')
      /\ List.length out = (List.length acc + k)%nat
      /\ Forall (resampled samples N) out.
Proof.
  intros Hlen. induction k as [|k IH]; intros n acc g Hdraw Hacc.
  - exists acc, g. split; [reflexivity|]. split; [lia | assumption].
  - cbn [stratified_loop]. unfold bind_rand, draw, lift.
    pose proof (Hdraw n g ltac:(lia)) as Hn.
    destruct (uniform (lit 1 10000000000) (one / of_int N) g) as [u0 g1].
    cbn [fst] in Hn.
    destruct (@search_in_bounds samples Q _ Hlen Hn) as (m & p & Hs & Hp).
    rewrite Hs, Hp.
    destruct (IH (n + 1)%Z (acc ++ [(one / of_int N, snd p)]) g1)
      as (out & g' & Hrun & Hout_len & Hout).
    { intros i g0 Hi. apply Hdraw. lia. }
    { apply Forall_app. split; [assumption|]. constructor; [|constructor].
      split; [reflexivity | cbn [snd]; eapply index_In, Hp]. }
    exists out, g'. split; [exact Hrun|]. split; [|assumption].
    rewrite Hout_len, length_app. simpl. lia.
Qed.

Lemma multinomial_loop_raises (samples : list (particle F)) Q (N : Z)
    (k : nat) (acc : list (particle F)) (g : G) :
  Forall (fun q => (q <? fst (uniform (lit 1 10000000000) (of_int 1) g)) = true) Q ->
  fst (multinomial_loop samples Q N (S k) acc g) = Raise IndexError.
Proof.
  intros HF. simpl. unfold bind_rand, draw, lift.
  destruct (uniform (lit 1 10000000000) (of_int 1) g) as [u g1]; simpl in *.
  unfold naive_search. now rewrite naive_search_from_past_end.
Qed.

Lemma stratified_loop_raises (samples : list (particle F)) Q (N : Z)
    (k : nat) (n : Z) (acc : list (particle F)) (g : G) :
  Forall (fun q =>
            (q <? fst (uniform (lit 1 10000000000) (one / of_int N) g)
                  + of_int n * of_int 1 / of_int N) = true) Q ->
  fst (stratified_loop samples Q N (S k) n acc g) = Raise IndexError.
Proof.
  intros HF. simpl. unfold bind_rand, draw, lift.
  destruct (uniform (lit 1 10000000000) (one / of_int N) g) as [u g1];
    simpl in *.
  unfold naive_search. now rewrite naive_search_from_past_end.
Qed.

(** C9.  [naive_search] returns the smallest index whose element is not
    below [x] when the list has such an element, and reads past the end of
    the list (an [IndexError]) when [x] is above every element, the empty
    list included; so [multinomial] and [stratified] raise as soon as a
    draw is above every cumulative weight. *)
Theorem naive_search_needs_an_upper_element : forall Q x,
  (Exists (fun q => (q <? x) = false) Q ->
   exists m q,
     naive_search Q x = Ok m
     /\ nth_error Q m = Some q /\ (q <? x) = false
     /\ forall j q', (j < m)%nat -> nth_error Q j = Some q' -> (q' <? x) = true)
  /\ (Forall (fun q => (q <? x) = true) Q ->
      naive_search Q x = Raise IndexError)
  /\ naive_search [] x = Raise IndexError
  /\ forall (samples : list (particle F)) (N : Z) (g : G),
      (1 <= N)%Z ->
      let cumulative := cumsum (map fst samples) in
      let u := fst (uniform (lit 1 10000000000) (of_int 1) g) in
      let u0 := fst (uniform (lit 1 10000000000) (one / of_int N) g) in
      (Forall (fun q => (q <? u) = true) cumulative ->
       fst (multinomial samples N g) = Raise IndexError)
      /\ (Forall (fun q => (q <? u0 + of_int 0 * of_int 1 / of_int N) = true)
                 cumulative ->
          fst (stratified samples N g) = Raise IndexError).
Proof.
  intros Q x. split; [|split; [|split]].
  - intros HE.
    destruct (naive_search_from_found x 0 HE) as (i & q & Hs & Hrest).
    exists i, q. split; [exact Hs | exact Hrest].
  - intros HF. now apply naive_search_from_past_end.
  - reflexivity.
  - intros samples N g HN cumulative u u0.
    assert (Hk : exists k, Z.to_nat N = S k).
    { exists (Z.to_nat (N - 1)). lia. }
    destruct Hk as [k Hk]. unfold multinomial, stratified. rewrite Hk.
    split; intros HF.
    + now apply multinomial_loop_raises.
    + now apply stratified_loop_raises.
Qed.

(** *** [normalize_weights] on a collapsed weight sum *)

Lemma comprehension_reinitialize ws (n : Z) :
  n <> 0%Z ->
  comprehension
    (fun weighted_sample : particle F =>
       bind (py_div_int one n) (fun w => Ok (w, snd weighted_sample))) ws
  = Ok (map (fun p => (one / of_int n, snd p)) ws).
Proof.
  intros Hn. unfold py_div_int.
  destruct (Z.eqb_spec n 0) as [?|_]; [contradiction|]. simpl.
  apply (comprehension_total (fun p : particle F => (one / of_int n, snd p))).
Qed.

Lemma comprehension_divide ws (d : F) :
  (d =? zero) = false ->
  comprehension
    (fun weighted_sample : particle F =>
       bind (py_div (fst weighted_sample) d)
         (fun w => Ok (w, snd weighted_sample))) ws
  = Ok (map (fun p => (fst p / d, snd p)) ws).
Proof.
  intros Hd. unfold py_div. rewrite Hd.
  apply (comprehension_total (fun p : particle F => (fst p / d, snd p))).
Qed.

(** C2.  On a non-empty list whose weight sum is below 1e-7,
    [normalize_weights] raises nothing and returns as many pairs, each
    with the weight [1.0 / N] and the state of the pair at the same
    place. *)
Theorem normalize_weights_reinitializes ws :
  ws <> [] ->
  (sum_weights ws <? lit 1 10000000) = true ->
  exists out,
    normalize_weights ws = Ok out
    /\ List.length out = List.length ws
    /\ Forall (fun p => fst p = one / of_int (Z.of_nat (List.length ws))) out
    /\ map snd out = map snd ws.
Proof.
  intros Hne Hlt. unfold normalize_weights. rewrite Hlt.
  rewrite comprehension_reinitialize by (destruct ws; simpl; [congruence | lia]).
  eexists. split; [reflexivity|].
  split; [apply length_map|]. split.
  - apply Forall_forall. intros p Hp. apply in_map_iff in Hp.
    destruct Hp as (p0 & <- & _). reflexivity.
  - rewrite map_map. reflexivity.
Qed.

(** *** The triggers *)

Lemma max_weight_stays_zero ps :
  Forall (fun par => (zero <? fst par) = false) ps ->
  fold_left (fun m par => py_max m (fst par)) ps zero = zero.
Proof.
  induction ps as [|par ps IH]; intros HF; simpl; [reflexivity|].
  inversion HF as [|? ? Hp Hps]; subst.
  unfold py_max at 2. rewrite Hp. apply IH, Hps.
Qed.

Lemma py_div_by_zero (a : F) : py_div a zero = Raise ZeroDivisionError.
Proof. unfold py_div, zero. now rewrite feqb_zero. Qed.

(** C1, as the code has it.  The trigger of [ParticleFilterMWR] has no
    guard: on a particle set none of whose weights is greater than 0 (all
    weights 0, or no particle at all) [max_weight] is still 0 and
    [1.0 / max_weight] raises [ZeroDivisionError]. *)
Theorem MWR_needs_resampling_divides_by_zero
    (self : ParticleFilter F) (threshold : F) ps :
  class self = ParticleFilterMWR threshold ->
  particles self = Some ps ->
  Forall (fun par => (zero <? fst par) = false) ps ->
  needs_resampling self = Raise ZeroDivisionError.
Proof.
  intros Hc Hp HF. unfold needs_resampling. rewrite Hp, Hc.
  unfold MWR_needs_resampling. rewrite (max_weight_stays_zero HF).
  now rewrite py_div_by_zero.
Qed.

End Generic.

(** * The process noise is not read by the update cycle *)

Section ProcessNoise.

Context {F : Type} {A : Arith F} {E : Elementary F}.
Context {G : Type} {RS : RandomSource F G}.

Lemma update_loop_cons (self : ParticleFilter F) (par : particle F)
    (rest : list (particle F)) (fwd ang : F)
    (measurements landmarks : list (F * F)) (acc : list (particle F)) (g : G) :
  update_loop self (par :: rest) fwd ang measurements landmarks acc g
  = let (s, g1) :=
      propagate_sample_Q self (snd par) fwd ang
        (lit 7 100, lit 7 100, lit 1 10) g in
    match compute_likelihood self s measurements landmarks with
    | Ok l =>
        update_loop self rest fwd ang measurements landmarks
          (acc ++ [(fmul (fst par) l, s)]) g1
    | Raise e => (Raise e, g1)
    end.
Proof.
  cbn [update_loop]. unfold bind_rand, lift.
  destruct (propagate_sample_Q self (snd par) fwd ang
              (lit 7 100, lit 7 100, lit 1 10) g) as [s g1].
  destruct (compute_likelihood self s measurements landmarks); reflexivity.
Qed.

Variables (self : ParticleFilter F) (pn : F * F).

Lemma propagate_sample_Q_ignores_noise (sample : state F) (d r : F)
    (Q : F * F * F) (g : G) :
  propagate_sample_Q (set_process_noise self pn) sample d r Q g
  = propagate_sample_Q self sample d r Q g.
Proof. reflexivity. Qed.

Lemma likelihood_loop_ignores_noise (sample : state F)
    (measurement landmarks : list (F * F)) :
  forall (i : nat) (acc : F),
    likelihood_loop (set_process_noise self pn) sample measurement landmarks i acc
    = likelihood_loop self sample measurement landmarks i acc.
Proof.
  induction landmarks as [|lm rest IH]; intros i acc; simpl; [reflexivity|].
  destruct (index measurement i); simpl; [apply IH | reflexivity].
Qed.

Lemma update_loop_ignores_noise (fwd ang : F)
    (measurements landmarks : list (F * F)) :
  forall (ps acc : list (particle F)) (g : G),
    update_loop (set_process_noise self pn) ps fwd ang measurements landmarks acc g
    = update_loop self ps fwd ang measurements landmarks acc g.
Proof.
  induction ps as [|par rest IH]; intros acc g; [reflexivity|].
  rewrite !update_loop_cons, propagate_sample_Q_ignores_noise.
  destruct (propagate_sample_Q self (snd par) fwd ang
              (lit 7 100, lit 7 100, lit 1 10) g) as [s g1].
  unfold compute_likelihood. rewrite likelihood_loop_ignores_noise.
  destruct (likelihood_loop self s measurements landmarks 0 one);
    [apply IH | reflexivity].
Qed.

Lemma update_ignores_noise (fwd ang : F)
    (measurements landmarks : list (F * F)) (g : G) :
  update (set_process_noise self pn) fwd ang measurements landmarks g
  = (result_map (fun s => set_process_noise s pn)
       (fst (update self fwd ang measurements landmarks g)),
     snd (update self fwd ang measurements landmarks g)).
Proof.
  unfold update, bind_rand, lift. simpl particles.
  destruct (particles self) as [ps|]; [|reflexivity].
  rewrite update_loop_ignores_noise.
  destruct (update_loop self ps fwd ang measurements landmarks [] g)
    as [[new_particles|e] g1]; [|reflexivity].
  destruct (normalize_weights new_particles) as [normalized|e]; [|reflexivity].
  change (needs_resampling
            (set_particles (set_process_noise self pn) (Some normalized)))
    with (needs_resampling (set_particles self (Some normalized))).
  destruct (needs_resampling (set_particles self (Some normalized)))
    as [[|]|e]; try reflexivity.
  simpl n_particles. simpl resampling_algorithm.
  destruct (resample normalized (n_particles self) (resampling_algorithm self) g1)
    as [[r|e] g2]; reflexivity.
Qed.

(** C5.  The prediction step of [update] is [propagate_sample_Q] with the
    fixed [Q = (0.07, 0.07, 0.1)], and the cycle never reads
    [process_noise]: two filters that differ in that attribute only, run on
    the same inputs from the same state of the random source, end with the
    same particle set (or the same exception) and the same state of the
    random source. *)
Theorem update_independent_of_process_noise
    (fwd ang : F) (measurements landmarks : list (F * F)) (g : G) :
  (forall par rest acc,
      update_loop self (par :: rest) fwd ang measurements landmarks acc g
      = let (s, g1) :=
          propagate_sample_Q self (snd par) fwd ang
            (lit 7 100, lit 7 100, lit 1 10) g in
        match compute_likelihood self s measurements landmarks with
        | Ok l =>
            update_loop self rest fwd ang measurements landmarks
              (acc ++ [(fmul (fst par) l, s)]) g1
        | Raise e => (Raise e, g1)
        end)
  /\ result_map (@particles F)
       (fst (update (set_process_noise self pn) fwd ang measurements landmarks g))
     = result_map (@particles F)
         (fst (update self fwd ang measurements landmarks g))
  /\ snd (update (set_process_noise self pn) fwd ang measurements landmarks g)
     = snd (update self fwd ang measurements landmarks g).
Proof.
  split; [intros; apply update_loop_cons|].
  rewrite update_ignores_noise. simpl fst. simpl snd. split; [|reflexivity].
  destruct (fst (update self fwd ang measurements landmarks g)); reflexivity.
Qed.

End ProcessNoise.

(** * Properties in exact arithmetic *)

Module ExactProperties.

Local Open Scope R_scope.

Ltac arith := cbn [fadd fsub fmul fdiv fopp fltb feqb of_int lit np_mod np_sqrt
                   np_pi np_exp np_cos np_sin np_arctan2
                   Exact.arith Exact.elementary
                   st_x st_y st_theta fst snd] in *.

Lemma ltb_true (a b : R) : Exact.ltb a b = true <-> a < b.
Proof. unfold Exact.ltb. destruct (Rlt_dec a b); split; intros; congruence. Qed.

Lemma ltb_false (a b : R) : Exact.ltb a b = false <-> b <= a.
Proof.
  unfold Exact.ltb. destruct (Rlt_dec a b); split; intros; try congruence; lra.
Qed.

Lemma eqb_false (a b : R) : a <> b -> Exact.eqb a b = false.
Proof. unfold Exact.eqb. destruct (Req_dec_T a b); congruence. Qed.

Lemma py_div_nonzero (a b : R) : b <> 0 -> py_div a b = Ok (a / b).
Proof. intros Hb. unfold py_div, zero. arith. now rewrite eqb_false. Qed.

Lemma of_nat_pos (n : nat) : (1 <= n)%nat -> 0 < IZR (Z.of_nat n).
Proof. intros Hn. apply IZR_lt. lia. Qed.

(** *** The weighted mean *)

Lemma average_step (ps : list (particle R)) : forall (acc : state R),
  fold_left add_weighted ps acc
  = {| st_x := st_x acc + st_x (average_state ps);
       st_y := st_y acc + st_y (average_state ps);
       st_theta := st_theta acc + st_theta (average_state ps) |}.
Proof.
  unfold average_state.
  induction ps as [|p ps IH]; intros acc; cbn [fold_left].
  - unfold zero. arith. destruct acc; arith. f_equal; lra.
  - rewrite (IH (add_weighted acc p)), (IH (add_weighted _ p)).
    unfold add_weighted, zero. arith. f_equal; lra.
Qed.

Lemma average_state_cons (p : particle R) (ps : list (particle R)) :
  average_state (p :: ps)
  = {| st_x := fst p * st_x (snd p) + st_x (average_state ps);
       st_y := fst p * st_y (snd p) + st_y (average_state ps);
       st_theta := fst p * st_theta (snd p) + st_theta (average_state ps) |}.
Proof.
  unfold average_state at 1. cbn [fold_left]. rewrite average_step.
  unfold add_weighted, zero. arith. f_equal; lra.
Qed.

Lemma average_state_repeat (w : R) (s : state R) (k : nat) :
  average_state (repeat (w, s) k)
  = {| st_x := INR k * w * st_x s;
       st_y := INR k * w * st_y s;
       st_theta := INR k * w * st_theta s |}.
Proof.
  induction k as [|k IH].
  - unfold average_state, zero. cbn [repeat fold_left INR]. arith. f_equal; lra.
  - change (repeat (w, s) (S k)) with ((w, s) :: repeat (w, s) k).
    rewrite average_state_cons, IH, S_INR. arith. f_equal; lra.
Qed.

(** C10, in exact arithmetic.  The weighted mean of [n >= 1] particles
    that all carry the weight [1.0 / n] and the same state [s] is [s],
    component by component. *)
Theorem get_average_state_of_identical_particles
    (self : ParticleFilter R) (s : state R) (n : nat) :
  (1 <= n)%nat ->
  particles self = Some (repeat (fdiv one (of_int (Z.of_nat n)), s) n) ->
  get_average_state self = Ok s.
Proof.
  intros Hn Hp. unfold get_average_state. rewrite Hp. f_equal.
  rewrite average_state_repeat. unfold one. arith.
  pose proof (of_nat_pos Hn) as Hpos. rewrite INR_IZR_INZ.
  destruct s as [x y t]; arith. f_equal; field; lra.
Qed.

(** *** The triggers on uniform weights *)

Lemma sum_squares_uniform (w : R) (ps : list (particle R)) :
  Forall (fun p => fst p = w) ps ->
  forall acc : R,
    fold_left (fun s par => fadd s (sqr (fst par))) ps acc
    = acc + INR (List.length ps) * (w * w).
Proof.
  induction 1 as [|p ps Hp _ IH]; intros acc; cbn [fold_left List.length].
  - cbn [INR]. lra.
  - rewrite IH, S_INR, Hp. unfold sqr. arith. lra.
Qed.

Lemma max_weight_uniform (w : R) (ps : list (particle R)) :
  Forall (fun p => fst p = w) ps ->
  fold_left (fun m par => py_max m (fst par)) ps w = w.
Proof.
  induction 1 as [|p ps Hp _ IH]; cbn [fold_left]; [reflexivity|].
  rewrite Hp. unfold py_max at 2. arith.
  replace (Exact.ltb w w) with false; [exact IH|].
  symmetry. apply ltb_false. lra.
Qed.

Lemma max_weight_uniform_from_zero (w : R) (ps : list (particle R)) :
  ps <> [] -> 0 < w ->
  Forall (fun p => fst p = w) ps ->
  fold_left (fun m par => py_max m (fst par)) ps zero = w.
Proof.
  intros Hne Hw HF. destruct ps as [|p ps]; [congruence|].
  inversion HF as [|? ? Hp Hps]; subst. cbn [fold_left].
  unfold py_max at 2, zero. arith.
  replace (Exact.ltb 0 (fst p)) with true by (symmetry; now apply ltb_true).
  now apply max_weight_uniform.
Qed.

(** C7, in exact arithmetic.  The trigger of [ParticleFilterSIR] answers
    [True] whatever the particles, in every arithmetic; on [N >= 1]
    particles that all carry the weight [1.0 / N], the triggers of
    [ParticleFilterNEPR] and of [ParticleFilterMWR] answer [True] exactly
    when [N] is below the threshold. *)
Theorem triggers_on_uniform_weights :
  (forall (F : Type) (A : Arith F) (self : ParticleFilter F),
      class self = ParticleFilterSIR -> needs_resampling self = Ok true)
  /\ (forall (self : ParticleFilter R) (ps : list (particle R)) (threshold : R),
        ps <> [] ->
        Forall (fun p => fst p = fdiv one (of_int (Z.of_nat (List.length ps)))) ps ->
        particles self = Some ps ->
        class self = ParticleFilterNEPR threshold
        \/ class self = ParticleFilterMWR threshold ->
        exists b : bool,
          needs_resampling self = Ok b
          /\ (b = true <-> IZR (Z.of_nat (List.length ps)) < threshold)).
Proof.
  split.
  - intros F A self Hc. unfold needs_resampling. rewrite Hc.
    destruct (particles self); reflexivity.
  - intros self ps threshold Hne HF Hp Hc.
    assert (Hn : (1 <= List.length ps)%nat).
    { destruct ps; [congruence | simpl; lia]. }
    pose proof (of_nat_pos Hn) as Hpos.
    set (n := IZR (Z.of_nat (List.length ps))) in *.
    assert (Hw : fdiv one (of_int (Z.of_nat (List.length ps))) = 1 / n)
      by reflexivity.
    rewrite Hw in HF. clear Hw.
    exists (Exact.ltb n threshold). split; [|apply ltb_true].
    unfold needs_resampling. rewrite Hp.
    destruct Hc as [Hc|Hc]; rewrite Hc.
    + unfold NEPR_needs_resampling.
      rewrite (sum_squares_uniform HF). unfold zero. arith.
      rewrite INR_IZR_INZ. fold n.
      replace (0 + n * (1 / n * (1 / n))) with (1 / n) by (field; lra).
      rewrite py_div_nonzero.
      * unfold one, bind. arith. do 2 f_equal. field. lra.
      * apply Rgt_not_eq. apply Rdiv_lt_0_compat; lra.
    + unfold MWR_needs_resampling.
      rewrite (@max_weight_uniform_from_zero (1 / n) ps Hne);
        [| apply Rdiv_lt_0_compat; lra | exact HF].
      rewrite py_div_nonzero.
      * unfold one, bind. arith. do 2 f_equal. field. lra.
      * apply Rgt_not_eq. apply Rdiv_lt_0_compat; lra.
Qed.

(** *** [validate_state] *)

Lemma remainder_range (a b : R) :
  0 < b -> 0 <= Exact.remainder a b < b.
Proof.
  intros Hb. unfold Exact.remainder.
  destruct (base_Int_part (a / b)) as [Hlo Hhi].
  set (k := IZR (Int_part (a / b))) in *.
  assert (Ha : a = a / b * b) by (field; lra).
  split.
  - apply Rmult_le_compat_r with (r := b) in Hlo; lra.
  - assert (Hlt : a / b < k + 1) by lra.
    apply Rmult_lt_compat_r with (r := b) in Hlt; lra.
Qed.

(** C6, in exact arithmetic.  With positive upper limits the validated
    state has [x] in [[0, x_max)], [y] in [[0, y_max)] and the heading in
    [[0, 2 pi)]; the lower limits [x_min] and [y_min] play no part. *)
Theorem validate_state_wraps_below_max (self : ParticleFilter R) (s : state R) :
  0 < x_max self -> 0 < y_max self ->
  (0 <= st_x (validate_state self s) < x_max self)
  /\ (0 <= st_y (validate_state self s) < y_max self)
  /\ (0 <= st_theta (validate_state self s) < 2 * PI)
  /\ forall xmin ymin : R,
       validate_state (set_lower_limits self xmin ymin) s = validate_state self s.
Proof.
  intros Hx Hy. unfold validate_state. arith.
  repeat split; try (apply remainder_range; assumption).
  - apply remainder_range. pose proof PI_RGT_0. lra.
  - apply remainder_range. pose proof PI_RGT_0. lra.
Qed.

(** *** [compute_likelihood] *)

Lemma arctan2_origin : Exact.arctan2 0 0 = 0.
Proof.
  unfold Exact.arctan2.
  destruct (Rlt_dec 0 0) as [H|_]; [lra|]. reflexivity.
Qed.

(** C8.  For a particle at the position of the only landmark, the observed
    measurement [(0.0, 0.0)] and the noise [(0.2, 0.05)] the likelihood is
    [1.0]; with no landmark the likelihood is [1.0] for every pose and
    every list of measurements, in every arithmetic. *)
Theorem likelihood_at_the_landmark :
  (forall (self : ParticleFilter R) (lx ly theta : R),
      compute_likelihood
        (set_measurement_noise self (lit 2 10, lit 5 100))
        {| st_x := lx; st_y := ly; st_theta := theta |}
        [(zero, zero)] [(lx, ly)]
      = Ok one)
  /\ (forall (F : Type) (A : Arith F) (E : Elementary F)
             (self : ParticleFilter F) (sample : state F)
             (measurement : list (F * F)),
        compute_likelihood self sample measurement [] = Ok one).
Proof.
  split; [|reflexivity].
  intros self lx ly theta.
  unfold compute_likelihood.
  cbn [likelihood_loop index nth_error bind measurement_noise
       set_measurement_noise].
  unfold sqr, zero, one. arith. f_equal.
  replace (lx - lx) with 0 by ring. replace (ly - ly) with 0 by ring.
  replace (0 * 0 + 0 * 0) with 0 by ring.
  rewrite sqrt_0, arctan2_origin.
  replace (- ((0 - 0) * (0 - 0)) / (2 * (2 / 10 * (2 / 10)))) with 0
    by (field; lra).
  replace (- ((0 - 0) * (0 - 0)) / (2 * (5 / 100 * (5 / 100)))) with 0
    by (field; lra).
  rewrite exp_0. ring.
Qed.

(** *** [normalize_weights] *)

Lemma sum_weights_shift (ws : list (particle R)) : forall acc : R,
  fold_left (fun s weighted_sample => fadd s (fst weighted_sample)) ws acc
  = acc + sum_weights ws.
Proof.
  unfold sum_weights, zero.
  induction ws as [|p ws IH]; intros acc; cbn [fold_left]; arith; [lra|].
  rewrite (IH (acc + fst p)), (IH (0 + fst p)). lra.
Qed.

Lemma sum_weights_cons (p : particle R) (ws : list (particle R)) :
  sum_weights (p :: ws) = fst p + sum_weights ws.
Proof.
  unfold sum_weights at 1. cbn [fold_left]. rewrite sum_weights_shift.
  unfold zero. arith. lra.
Qed.

Lemma sum_weights_scaled (d : R) (ws : list (particle R)) :
  sum_weights (map (fun p => (fdiv (fst p) d, snd p)) ws) = sum_weights ws / d.
Proof.
  induction ws as [|p ws IH]; cbn [map].
  - unfold sum_weights, zero. cbn [fold_left]. arith. unfold Rdiv. ring.
  - rewrite !sum_weights_cons, IH. arith. unfold Rdiv. ring.
Qed.

Lemma sum_weights_constant (c : R) (ws : list (particle R)) :
  sum_weights (map (fun p => (c, snd p)) ws) = INR (List.length ws) * c.
Proof.
  induction ws as [|p ws IH]; cbn [map List.length].
  - unfold sum_weights, zero. cbn [fold_left INR]. arith. ring.
  - rewrite sum_weights_cons, IH, S_INR. arith. ring.
Qed.

Lemma comprehension_divide_nonzero (d : R) (ws : list (particle R)) :
  d <> 0 ->
  comprehension
    (fun weighted_sample : particle R =>
       bind (py_div (fst weighted_sample) d)
         (fun w => Ok (w, snd weighted_sample))) ws
  = Ok (map (fun p => (fdiv (fst p) d, snd p)) ws).
Proof. intros Hd. apply comprehension_divide. now apply eqb_false. Qed.

(** C3, in exact arithmetic.  On a non-empty list with a positive weight
    sum [normalize_weights] raises nothing, the weights it returns sum to 1
    and the states are those of the input, in order; when the sum is at
    least 1e-7 every weight is the weight of the input divided by the
    sum. *)
Theorem normalize_weights_sums_to_one (ws : list (particle R)) :
  ws <> [] ->
  0 < sum_weights ws ->
  exists out : list (particle R),
    normalize_weights ws = Ok out
    /\ sum_weights out = 1
    /\ map snd out = map snd ws
    /\ (lit 1 10000000 <= sum_weights ws ->
        out = map (fun p => (fdiv (fst p) (sum_weights ws), snd p)) ws).
Proof.
  intros Hne Hpos. unfold normalize_weights.
  destruct (fltb (sum_weights ws) (lit 1 10000000)) eqn:Hlt.
  - apply ltb_true in Hlt.
    assert (Hn : (1 <= List.length ws)%nat).
    { destruct ws; [congruence | simpl; lia]. }
    pose proof (of_nat_pos Hn) as Hlen.
    rewrite comprehension_reinitialize by lia.
    eexists. split; [reflexivity|]. split; [|split].
    + rewrite sum_weights_constant, INR_IZR_INZ. unfold one. arith.
      field. lra.
    + rewrite map_map. reflexivity.
    + intros Hge. arith. lra.
  - apply ltb_false in Hlt. arith.
    rewrite comprehension_divide_nonzero by lra.
    eexists. split; [reflexivity|]. split; [|split].
    + rewrite sum_weights_scaled. field. lra.
    + rewrite map_map. reflexivity.
    + reflexivity.
Qed.

(** *** The resampling algorithms *)

Section Resampling.

Context {G : Type} {RS : RandomSource R G}.

(** numpy documents the draws of [uniform(low, high)] as taken from the
    half-open interval [[low, high)]. *)
Hypothesis uniform_below :
  forall (lo hi : R) (g : G), fst (uniform lo hi g) < hi.

Lemma cumsum_from_total (weights : list R) : forall acc : R,
  weights <> [] ->
  In (acc + fold_right Rplus 0 weights) (cumsum_from acc weights).
Proof.
  induction weights as [|w rest IH]; intros acc Hne; [congruence|].
  cbn [cumsum_from fold_right]. arith.
  destruct rest as [|w' rest'].
  - left. cbn [fold_right]. ring.
  - right. replace (acc + (w + fold_right Rplus 0 (w' :: rest')))
      with (acc + w + fold_right Rplus 0 (w' :: rest')) by ring.
    apply IH. discriminate.
Qed.

Lemma cumsum_total (weights : list R) :
  weights <> [] -> In (fold_right Rplus 0 weights) (cumsum weights).
Proof.
  destruct weights as [|w rest]; intros Hne; [congruence|].
  cbn [cumsum fold_right]. destruct rest as [|w' rest'].
  - left. cbn [fold_right]. ring.
  - right. apply cumsum_from_total. discriminate.
Qed.

Lemma sum_weights_fold_right (samples : list (particle R)) :
  sum_weights samples = fold_right Rplus 0 (map fst samples).
Proof.
  induction samples as [|p samples IH]; [reflexivity|].
  rewrite sum_weights_cons, IH. reflexivity.
Qed.

Lemma cumsum_from_below_total (weights : list R) : forall acc : R,
  Forall (fun w => 0 <= w) weights ->
  Forall (fun q => q <= acc + fold_right Rplus 0 weights)
    (cumsum_from acc weights).
Proof.
  induction weights as [|w rest IH]; intros acc Hw; cbn [cumsum_from];
    [constructor|].
  inversion Hw as [|? ? Hw0 Hrest]; subst. cbn [fold_right]. arith.
  assert (Hsum : 0 <= fold_right Rplus 0 rest).
  { clear -Hrest. induction Hrest; cbn [fold_right]; lra. }
  constructor; [lra|].
  replace (acc + (w + fold_right Rplus 0 rest))
    with (acc + w + fold_right Rplus 0 rest) by ring.
  now apply IH.
Qed.

(** With weights that are not negative the cumulative weights are at most
    their total: a first draw above the total sends [multinomial] past the
    end of the list. *)
Lemma multinomial_raises_above_total (samples : list (particle R)) (N : Z)
    (g : G) :
  (1 <= N)%Z ->
  Forall (fun p => 0 <= fst p) samples ->
  sum_weights samples < fst (uniform (lit 1 10000000000) (of_int 1) g) ->
  fst (multinomial samples N g) = Raise IndexError.
Proof.
  intros HN Hw Hu. unfold multinomial.
  destruct (Z.to_nat N) as [|k] eqn:Hk; [lia|].
  apply multinomial_loop_raises.
  rewrite sum_weights_fold_right in Hu.
  assert (Hle : Forall (fun q => q <= fold_right Rplus 0 (map fst samples))
                  (cumsum (map fst samples))).
  { destruct samples as [|p rest]; [constructor|].
    inversion Hw as [|? ? Hp Hrest]; subst.
    cbn [map cumsum fold_right].
    assert (Hsum : 0 <= fold_right Rplus 0 (map fst rest)).
    { clear -Hrest. induction Hrest; cbn [map fold_right]; lra. }
    constructor; [lra|]. apply cumsum_from_below_total.
    apply Forall_map. exact Hrest. }
  eapply Forall_impl; [|exact Hle].
  intros q Hq. apply ltb_true. cbn beta in *. lra.
Qed.

Variable samples : list (particle R).
Hypothesis weights_sum_to_one : sum_weights samples = 1.

Lemma samples_not_empty : samples <> [].
Proof.
  intros ->. unfold sum_weights, zero in weights_sum_to_one.
  cbn [fold_left] in weights_sum_to_one. arith. lra.
Qed.

(** The cumulative weights hold the value 1: no draw that is at most 1 is
    above all of them. *)
Lemma one_is_reached (u : R) :
  u <= 1 ->
  Exists (fun q => fltb q u = false) (cumsum (map fst samples)).
Proof.
  intros Hu. apply Exists_exists. exists 1. split.
  - rewrite <- weights_sum_to_one, sum_weights_fold_right.
    apply cumsum_total. pose proof samples_not_empty as Hne.
    destruct samples; [congruence | discriminate].
  - apply ltb_false. exact Hu.
Qed.

Lemma cumulative_length :
  List.length (cumsum (map fst samples)) = List.length samples.
Proof. now rewrite cumsum_length, length_map. Qed.

Lemma multinomial_loop_total (N : Z) (k : nat) :
  forall (acc : list (particle R)) (g : G),
    Forall (resampled samples N) acc ->
    exists (out : list (particle R)) (g' : G),
      multinomial_loop samples (cumsum (map fst samples)) N k acc g = (Ok out, g')
      /\ List.length out = (List.length acc + k)%nat
      /\ Forall (resampled samples N) out.
Proof.
  apply multinomial_loop_in_bounds; [exact cumulative_length|].
  intros g. apply one_is_reached.
  pose proof (uniform_below (lit 1 10000000000) (of_int 1) g). arith. lra.
Qed.

Lemma stratified_loop_total (N : Z) (k : nat) :
  forall (n : Z) (acc : list (particle R)) (g : G),
    (0 <= n)%Z -> (n + Z.of_nat k = N)%Z ->
    Forall (resampled samples N) acc ->
    exists (out : list (particle R)) (g' : G),
      stratified_loop samples (cumsum (map fst samples)) N k n acc g = (Ok out, g')
      /\ List.length out = (List.length acc + k)%nat
      /\ Forall (resampled samples N) out.
Proof.
  intros n acc g Hn HN Hacc.
  apply stratified_loop_in_bounds; [exact cumulative_length| |exact Hacc].
  intros i g0 Hi. apply one_is_reached.
  pose proof (uniform_below (lit 1 10000000000) (fdiv one (of_int N)) g0) as Hu.
  unfold one in *. arith.
  assert (HNpos : 0 < IZR N) by (apply IZR_lt; lia).
  assert (Hle : IZR i <= IZR N - 1).
  { rewrite <- minus_IZR. apply IZR_le. lia. }
  assert (Hq : IZR i * 1 / IZR N <= (IZR N - 1) / IZR N).
  { unfold Rdiv. apply Rmult_le_compat_r.
    - left. now apply Rinv_0_lt_compat.
    - lra. }
  replace ((IZR N - 1) / IZR N) with (1 - 1 / IZR N) in Hq by (field; lra).
  lra.
Qed.

End Resampling.

Section ResamplingInRange.

Context {G : Type} {RS : RandomSource R G}.

(** numpy documents the draws of [uniform(low, high)] as taken from the
    half-open interval [[low, high)]; for [high <= low] it promises
    nothing. *)
Hypothesis uniform_below_high :
  forall (lo hi : R) (g : G), lo < hi -> fst (uniform lo hi g) < hi.

Lemma share_above_the_lower_bound (N : Z) :
  (1 <= N)%Z -> (N < 10000000000)%Z ->
  lit 1 10000000000 < fdiv one (of_int N).
Proof.
  intros H1 H2. unfold one. arith.
  assert (Hpos : 0 < IZR N) by (apply IZR_lt; lia).
  assert (Hlt : IZR N < 10000000000) by (apply IZR_lt; exact H2).
  assert (Hinv : / 10000000000 < / IZR N).
  { apply Rinv_lt_contravar; [apply Rmult_lt_0_compat; lra | exact Hlt]. }
  unfold Rdiv. lra.
Qed.


End ResamplingInRange.

End ExactProperties.

(** * The program run on binary64 numbers *)

Module Binary64Properties.

Local Open Scope float_scope.

Ltac float_neq H :=
  apply (f_equal (fun r => match r with
                           | Ok s => PrimFloat.eqb (st_x s) 1
                           | Raise _ => true
                           end)) in H;
  vm_compute in H; discriminate H.

(** The decimal literals of the program, as Rocq reads them. *)
Example literals :
  (lit 1 10000000 : float) = 0x1.ad7f29abcaf48p-24
  /\ (lit 1 10000000000 : float) = 0x1.b7cdfd9d7bdbbp-34
  /\ (lit 7 100 : float) = 0x1.1eb851eb851ecp-4
  /\ (lit 1 10 : float) = 0x1.999999999999ap-4
  /\ (of_int 1 / lit 5 1000 : float)%num = 200.
Proof. vm_compute. repeat split. Qed.

(** Counterexample to C1.  For two particles of weight [0.0] the trigger of
    [ParticleFilterMWR] does not answer [True]: it raises
    [ZeroDivisionError]. *)
Lemma MWR_needs_resampling_raises_on_zero_weights :
  needs_resampling
    (set_particles demo64 (Some [(0, origin64); (0, origin64)]))
  = Raise ZeroDivisionError.
Proof. vm_compute. reflexivity. Qed.

Lemma zero_is_below_the_threshold (s : float) :
  PrimFloat.eqb s 0 = true -> PrimFloat.ltb s (lit 1 10000000) = true.
Proof.
  rewrite FloatAxioms.eqb_spec, FloatAxioms.ltb_spec.
  replace (Prim2SF 0) with (S754_zero false) by reflexivity.
  replace (Prim2SF (lit 1 10000000))
    with (S754_finite false 7555786372591432 (-76))
    by (vm_compute; reflexivity).
  destruct (Prim2SF s) as [b|b| |b m e]; try discriminate; try reflexivity;
    destruct b; discriminate.
Qed.

(** X20.  On binary64 numbers [normalize_weights] raises on no input: a
    weight sum that is not below 1e-7 is not zero, and an empty list is
    never divided by its length.  The states are those of the input, in order,
    and when the sum is not below 1e-7 every weight is the weight of the
    input divided by the sum. *)
Lemma normalize_weights_never_raises (ws : list (particle float)) :
  exists out : list (particle float),
    normalize_weights ws = Ok out
    /\ List.length out = List.length ws
    /\ map snd out = map snd ws
    /\ (fltb (sum_weights ws) (lit 1 10000000) = false ->
        out = map (fun p => (fdiv (fst p) (sum_weights ws), snd p)) ws).
Proof.
  unfold normalize_weights.
  destruct (fltb (sum_weights ws) (lit 1 10000000)) eqn:Hlt.
  - destruct ws as [|p ws'].
    + exists []. repeat split.
    + rewrite comprehension_reinitialize by (simpl; lia).
      eexists. split; [reflexivity|]. split; [apply length_map|].
      split; [|discriminate]. rewrite map_map. reflexivity.
  - rewrite comprehension_divide.
    + eexists. split; [reflexivity|]. split; [apply length_map|].
      split; [|reflexivity]. rewrite map_map. reflexivity.
    + destruct (feqb (sum_weights ws) zero) eqn:Hz; [|reflexivity].
      apply zero_is_below_the_threshold in Hz.
      change (fltb (sum_weights ws) (lit 1 10000000) = true) in Hz.
      congruence.
Qed.

(** Counterexample to C3.  Two particles of weight [1e308] have the positive
    weight sum [inf]; both normalized weights are [0.0], and their sum is
    not within 1e-9 of 1. *)
Lemma normalize_weights_overflow :
  let ws := [(of_int (10 ^ 308), origin64); (of_int (10 ^ 308), origin64)] in
  fltb zero (sum_weights ws) = true
  /\ normalize_weights ws = Ok [(0, origin64); (0, origin64)]
  /\ fltb (sum_weights [(0, origin64); (0, origin64)]) (one - lit 1 1000000000)%num
     = true.
Proof. vm_compute. repeat split. Qed.

(** Counterexample to C6.  In the world of the demonstration
    ([x_max = y_max = 20.0]) the state [(-1e-20, -1e-20, -1e-20)] is
    wrapped to [(20.0, 20.0, 2 pi)]: no component is below its upper
    bound. *)
Lemma validate_state_reaches_the_bound :
  let s := validate_state demo64
             {| st_x := - lit 1 (10 ^ 20);
                st_y := - lit 1 (10 ^ 20);
                st_theta := - lit 1 (10 ^ 20) |}%num in
  s = {| st_x := 20; st_y := 20; st_theta := (of_int 2 * np_pi)%num |}
  /\ fltb (st_x s) (x_max demo64) = false
  /\ fltb (st_y s) (y_max demo64) = false
  /\ fltb (st_theta s) (of_int 2 * np_pi)%num = false.
Proof. vm_compute. repeat split. Qed.

(** Counterexample to C7.  With the threshold 5.0 and 5 particles of weight
    [1.0 / 5] the trigger of [ParticleFilterNEPR] answers [True], and so
    does the trigger of [ParticleFilterMWR] with the threshold 93.0 and 93
    particles of weight [1.0 / 93]; yet neither 5 < 5.0 nor 93 < 93.0. *)
Lemma triggers_on_uniform_weights_round :
  needs_resampling
    (set_particles (with_class demo64 (ParticleFilterNEPR 5))
       (Some (uniform_particles 5 origin64)))
  = Ok true
  /\ fltb (of_int 5) 5 = false
  /\ needs_resampling
       (set_particles (with_class demo64 (ParticleFilterMWR 93))
          (Some (uniform_particles 93 origin64)))
     = Ok true
  /\ fltb (of_int 93) 93 = false.
Proof. vm_compute. repeat split. Qed.

(** Counterexample to C10.  The weighted mean of 10 particles of weight
    [1.0 / 10] and state [(1.0, 1.0, 1.0)] is not that state: each
    component is 0.9999999999999999. *)
Lemma get_average_state_rounds :
  get_average_state
    (set_particles demo64 (Some (uniform_particles 10 unit64)))
  <> Ok unit64.
Proof. intros H. float_neq H. Qed.

Example get_average_state_of_ten :
  get_average_state
    (set_particles demo64 (Some (uniform_particles 10 unit64)))
  = Ok {| st_x := 0x1.fffffffffffffp-1;
          st_y := 0x1.fffffffffffffp-1;
          st_theta := 0x1.fffffffffffffp-1 |}.
Proof. vm_compute. reflexivity. Qed.

(** *** Resampling and likelihood on binary64 numbers *)

Lemma ltb_asym (x y : float) :
  PrimFloat.ltb x y = true -> PrimFloat.ltb y x = false.
Proof.
  rewrite !FloatAxioms.ltb_spec. unfold SFltb.
  destruct (Prim2SF x) as [sx|sx| |sx mx ex], (Prim2SF y) as [sy|sy| |sy my ey];
    cbn [SFcompare]; try discriminate; try reflexivity;
    destruct sx; try discriminate; try reflexivity;
    destruct sy; try discriminate; try reflexivity.
  all: rewrite (Z.compare_antisym ex ey);
    change (Pos.compare_cont Eq my mx) with (my ?= mx)%positive;
    rewrite (Pos.compare_antisym mx my);
    change (Pos.compare_cont Eq mx my) with (mx ?= my)%positive;
    destruct (ex ?= ey)%Z, (mx ?= my)%positive; cbn [CompOpp];
    try discriminate; reflexivity.
Qed.

Section Multinomial.

Context {G : Type} {RS : RandomSource float G}.

(** numpy documents the draws of [uniform(low, high)] as taken from the
    half-open interval [[low, high)]: those of [uniform(1e-10, 1)] are
    below 1. *)
Hypothesis uniform_below_one :
  forall g : G,
    fltb (fst (uniform (lit 1 10000000000) (of_int 1) g)) (of_int 1) = true.

(** X21.  On binary64 numbers, when the cumulative weights reach exactly
    [1.0] and the draws of [uniform(1e-10, 1)] are below 1, [multinomial]
    raises nothing and returns [N] resampled particles. *)
Lemma multinomial_reaches_one (samples : list (particle float)) (N : Z) (g : G) :
  In 1 (cumsum (map fst samples)) ->
  exists (out : list (particle float)) (g' : G),
    multinomial samples N g = (Ok out, g')
    /\ List.length out = Z.to_nat N
    /\ Forall (resampled samples N) out.
Proof.
  intros Hone. unfold multinomial.
  destruct (@multinomial_loop_in_bounds float _ G _ samples
              (cumsum (map fst samples)) N) with (k := Z.to_nat N)
      (acc := @nil (particle float)) (g := g)
    as (out & g' & Hrun & Hlen & Hout).
  - now rewrite cumsum_length, length_map.
  - intros g0. apply Exists_exists. exists 1. split; [exact Hone|].
    apply ltb_asym. exact (uniform_below_one g0).
  - constructor.
  - exists out, g'. split; [exact Hrun|]. split; [exact Hlen | exact Hout].
Qed.

End Multinomial.

Example multinomial_reaches_one_on_halves :
  exists (out : list (particle float)) (g' : unit),
    multinomial [(0.5, origin64); (0.5, unit64)] 3 tt = (Ok out, g')
    /\ List.length out = 3%nat
    /\ Forall (resampled [(0.5, origin64); (0.5, unit64)] 3) out.
Proof.
  apply (@multinomial_reaches_one unit lower_end_source).
  - intros g. vm_compute. reflexivity.
  - right. left. vm_compute. reflexivity.
Defined.

Lemma sub_diag_finite (x : float) : Binary64.finite x -> x - x = 0.
Proof.
  unfold Binary64.finite. intros Hx. apply Prim2SF_inj. rewrite FloatAxioms.sub_spec.
  replace (Prim2SF 0) with (S754_zero false) by reflexivity.
  destruct (Prim2SF x) as [s|s| |s m e]; try contradiction.
  - destruct s; reflexivity.
  - unfold SF64sub, SFsub. rewrite Z.sub_diag. reflexivity.
Qed.

Section Likelihood.

Context {E : Elementary float}.

(** What C's [exp] and [atan2] return at zero (IEC 60559). *)
Hypothesis exp_zero : np_exp (-0) = 1.
Hypothesis arctan2_zero : np_arctan2 0 0 = 0.

(** The scenario of C8 on binary64 numbers: every intermediate value is a
    zero or 1. *)
Lemma likelihood_at_the_landmark_binary64
    (self : ParticleFilter float) (lx ly theta : float) :
  Binary64.finite lx -> Binary64.finite ly ->
  compute_likelihood (set_measurement_noise self (lit 2 10, lit 5 100))
    {| st_x := lx; st_y := ly; st_theta := theta |} [(0, 0)] [(lx, ly)]
  = Ok 1.
Proof.
  intros Hx Hy. unfold compute_likelihood.
  cbn [likelihood_loop index nth_error bind measurement_noise
       set_measurement_noise st_x st_y fst snd].
  change (fsub lx lx) with (lx - lx). change (fsub ly ly) with (ly - ly).
  rewrite (sub_diag_finite lx Hx), (sub_diag_finite ly Hy).
  replace (np_sqrt (fadd (fmul 0 0) (fmul 0 0))) with 0
    by (vm_compute; reflexivity).
  rewrite arctan2_zero.
  replace (fdiv (fopp (sqr (fsub 0 0))) (fmul (of_int 2) (sqr (lit 2 10))))
    with (-0) by (vm_compute; reflexivity).
  replace (fdiv (fopp (sqr (fsub 0 0))) (fmul (of_int 2) (sqr (lit 5 100))))
    with (-0) by (vm_compute; reflexivity).
  rewrite exp_zero. vm_compute. reflexivity.
Qed.

End Likelihood.

(** The cumulative weights of 7 particles of weight [1.0 / 7] end below
    0.9999999999999999, a value that [uniform(1e-10, 1)] may draw:
    [multinomial] then reads past the end of the list. *)
Example multinomial_past_the_end :
  fst (multinomial (uniform_particles 7 origin64) 7 [0x1.fffffffffffffp-1])
  = Raise IndexError.
Proof. vm_compute. reflexivity. Qed.


Example multinomial_in_bounds :
  fst (multinomial (uniform_particles 4 unit_state) 2 [0.5; 0.75])
  = Ok [(0.5, unit_state); (0.5, unit_state)].
Proof. vm_compute. reflexivity. Qed.

End Binary64Properties.

(** * The theorems at concrete inputs *)

Module Witnesses.

Lemma midpoint_source_below (lo hi : R) (g : unit) :
  (fst (uniform lo hi g) < hi)%R.
Proof.
  cbn [uniform midpoint_source fst].
  destruct (Rlt_dec lo hi); lra.
Qed.

Lemma MWR_needs_resampling_divides_by_zero_witness :
  needs_resampling
    (set_particles (demo_filter (F := float))
       (Some [(zero, origin); (zero, origin); (zero, origin)]))
  = Raise ZeroDivisionError.
Proof.
  apply (@MWR_needs_resampling_divides_by_zero float _
           (set_particles demo_filter
              (Some [(zero, origin); (zero, origin); (zero, origin)]))
           (fdiv (of_int 1) (lit 5 1000))
           [(zero, origin); (zero, origin); (zero, origin)]).
  - reflexivity.
  - reflexivity.
  - repeat constructor.
Defined.

Lemma normalize_weights_reinitializes_witness :
  let ws : list (particle float) :=
    [(zero, origin); (lit 1 1000000000, unit_state)] in
  exists out,
    normalize_weights ws = Ok out
    /\ List.length out = List.length ws
    /\ Forall (fun p => fst p = fdiv one (of_int (Z.of_nat (List.length ws)))) out
    /\ map snd out = map snd ws.
Proof.
  apply (@normalize_weights_reinitializes float _
           [(zero, origin); (lit 1 1000000000, unit_state)]).
  - discriminate.
  - vm_compute. reflexivity.
Defined.

Lemma normalize_weights_sums_to_one_witness :
  let ws : list (particle R) := [(one, origin); (of_int 3, unit_state)] in
  exists out : list (particle R),
    normalize_weights ws = Ok out
    /\ sum_weights out = 1%R
    /\ map snd out = map snd ws
    /\ ((lit 1 10000000 <= sum_weights ws)%R ->
        out = map (fun p => (fdiv (fst p) (sum_weights ws), snd p)) ws).
Proof.
  apply (@ExactProperties.normalize_weights_sums_to_one
           [(one, origin); (of_int 3, unit_state)]).
  - discriminate.
  - unfold sum_weights, zero, one. cbn [fold_left fst fadd of_int Exact.arith].
    lra.
Defined.


Lemma validate_state_wraps_below_max_witness :
  let self : ParticleFilter R := demo_filter in
  let s : state R :=
    {| st_x := of_int 25; st_y := of_int (-3); st_theta := of_int 7 |} in
  (0 <= st_x (validate_state self s) < x_max self)%R
  /\ (0 <= st_y (validate_state self s) < y_max self)%R
  /\ (0 <= st_theta (validate_state self s) < 2 * PI)%R
  /\ forall xmin ymin : R,
       validate_state (set_lower_limits self xmin ymin) s = validate_state self s.
Proof.
  apply (@ExactProperties.validate_state_wraps_below_max demo_filter
           {| st_x := of_int 25; st_y := of_int (-3); st_theta := of_int 7 |}).
  - cbn [x_max demo_filter lit Exact.arith]. lra.
  - cbn [y_max demo_filter lit Exact.arith]. lra.
Defined.

Lemma get_average_state_of_identical_particles_witness :
  get_average_state
    (set_particles (demo_filter (F := R))
       (Some (uniform_particles 3 unit_state)))
  = Ok unit_state.
Proof.
  apply (@ExactProperties.get_average_state_of_identical_particles
           (set_particles demo_filter (Some (uniform_particles 3 unit_state)))
           unit_state 3).
  - lia.
  - reflexivity.
Defined.

Lemma triggers_on_uniform_weights_witness :
  exists b : bool,
    needs_resampling
      (set_particles
         (with_class (demo_filter (F := R)) (ParticleFilterNEPR (of_int 3)))
         (Some (uniform_particles 2 origin)))
    = Ok b
    /\ (b = true <-> (IZR 2 < of_int 3)%R).
Proof.
  apply (proj2 ExactProperties.triggers_on_uniform_weights
           (set_particles
              (with_class demo_filter (ParticleFilterNEPR (of_int 3)))
              (Some (uniform_particles 2 origin)))
           (uniform_particles 2 origin) (of_int 3)).
  - discriminate.
  - repeat constructor.
  - reflexivity.
  - left. reflexivity.
Defined.

Lemma naive_search_needs_an_upper_element_witness :
  exists (m : nat) (q : float),
    naive_search [0.25; 0.5; 1]%float 0.375%float = Ok m
    /\ nth_error [0.25; 0.5; 1]%float m = Some q
    /\ fltb q 0.375%float = false
    /\ forall (j : nat) (q' : float),
         (j < m)%nat -> nth_error [0.25; 0.5; 1]%float j = Some q' ->
         fltb q' 0.375%float = true.
Proof.
  apply (proj1 (@naive_search_needs_an_upper_element float _ (list float) _
                  [0.25; 0.5; 1]%float 0.375%float)).
  apply Exists_cons_tl, Exists_cons_hd. vm_compute. reflexivity.
Defined.

End Witnesses.

(** * Further properties that hold in every arithmetic *)

Section Edges.

Context {F : Type} {A : Arith F} {E : Elementary F}.
Context {G : Type} {RS : RandomSource F G}.

Local Open Scope num_scope.

(** *** [compute_likelihood] and the measurements it reads *)

Lemma likelihood_loop_enough (self : ParticleFilter F) (sample : state F)
    (measurement : list (F * F)) (lms : list (F * F)) :
  forall (i : nat) (acc : F),
    (i + List.length lms <= List.length measurement)%nat ->
    (exists l, likelihood_loop self sample measurement lms i acc = Ok l)
    /\ forall surplus : list (F * F),
        likelihood_loop self sample (measurement ++ surplus) lms i acc
        = likelihood_loop self sample measurement lms i acc.
Proof.
  induction lms as [|lm rest IH]; intros i acc Hlen; cbn [likelihood_loop].
  - split; [eexists; reflexivity | reflexivity].
  - cbn [List.length] in Hlen. unfold index.
    destruct (nth_error measurement i) as [z|] eqn:Hz.
    + cbn [bind]. destruct (IH (S i)
        (acc * (np_exp (- sqr (fst z - np_sqrt
                   ((st_x sample - fst lm) * (st_x sample - fst lm)
                    + (st_y sample - snd lm) * (st_y sample - snd lm)))
                 / (of_int 2 * sqr (fst (measurement_noise self))))
                * np_exp (- sqr (snd z - np_arctan2 (st_y sample - snd lm)
                                           (st_x sample - fst lm))
                          / (of_int 2 * sqr (snd (measurement_noise self))))))
        ltac:(lia)) as [Hok Hsur].
      split; [exact Hok|]. intros surplus.
      rewrite nth_error_app1 by lia. rewrite Hz. cbn [bind]. apply Hsur.
    + apply nth_error_None in Hz. lia.
Qed.

Lemma likelihood_loop_short (self : ParticleFilter F) (sample : state F)
    (measurement : list (F * F)) (lms : list (F * F)) :
  forall (i : nat) (acc : F),
    (i <= List.length measurement < i + List.length lms)%nat ->
    likelihood_loop self sample measurement lms i acc = Raise IndexError.
Proof.
  induction lms as [|lm rest IH]; intros i acc Hlen; cbn [likelihood_loop].
  - cbn [List.length] in Hlen. lia.
  - cbn [List.length] in Hlen. unfold index.
    destruct (nth_error measurement i) as [z|] eqn:Hz; [|reflexivity].
    cbn [bind]. apply IH.
    assert (i < List.length measurement)%nat
      by (apply nth_error_Some; congruence).
    lia.
Qed.

(** X1.  [compute_likelihood] reads one measurement per landmark, by
    index: with at least as many measurements as landmarks it returns a
    number and the measurements past the last landmark are not read; with
    fewer it raises [IndexError]. *)
Theorem compute_likelihood_reads_one_measurement_per_landmark
    (self : ParticleFilter F) (sample : state F)
    (measurement lms : list (F * F)) :
  ((List.length lms <= List.length measurement)%nat ->
   (exists l, compute_likelihood self sample measurement lms = Ok l)
   /\ forall surplus : list (F * F),
       compute_likelihood self sample (measurement ++ surplus) lms
       = compute_likelihood self sample measurement lms)
  /\ ((List.length measurement < List.length lms)%nat ->
      compute_likelihood self sample measurement lms = Raise IndexError).
Proof.
  unfold compute_likelihood. split; intros Hlen.
  - apply likelihood_loop_enough. simpl. exact Hlen.
  - apply likelihood_loop_short. simpl. lia.
Qed.

Lemma measure_loop_length (self : Robot F) (lms : list (F * F)) :
  forall (acc : list (F * F)) (g : G),
    List.length (fst (measure_loop self lms acc g))
    = (List.length acc + List.length lms)%nat.
Proof.
  induction lms as [|lm rest IH]; intros acc g; cbn [measure_loop].
  - simpl. lia.
  - destruct (normal _ (std_meas_distance self) g) as [zd g1].
    destruct (normal _ (std_meas_angle self) g1) as [za g2].
    rewrite IH, length_app. simpl. lia.
Qed.

(** X2.  [Robot.measure] returns one measurement per landmark, so a
    likelihood computed from the measurements of a robot against the same
    landmarks never raises. *)
Theorem measure_feeds_compute_likelihood
    (robot : Robot F) (self : ParticleFilter F) (sample : state F)
    (lms : list (F * F)) (g : G) :
  List.length (fst (measure robot lms g)) = List.length lms
  /\ exists l,
      compute_likelihood self sample (fst (measure robot lms g)) lms = Ok l.
Proof.
  assert (Hlen : List.length (fst (measure robot lms g)) = List.length lms)
    by (unfold measure; rewrite measure_loop_length; reflexivity).
  split; [exact Hlen|].
  unfold compute_likelihood. apply likelihood_loop_enough. simpl. lia.
Qed.

(** *** The initial particle sets *)

Lemma initialize_unknown_loop_count (self : ParticleFilter F) (weight : F)
    (k : nat) :
  forall (ps : list (particle F)) (g : G),
    Forall (fun p => fst p = weight) ps ->
    List.length (fst (initialize_unknown_loop self weight k ps g))
    = (List.length ps + k)%nat
    /\ Forall (fun p => fst p = weight)
         (fst (initialize_unknown_loop self weight k ps g)).
Proof.
  induction k as [|k IH]; intros ps g Hps; cbn [initialize_unknown_loop].
  - simpl. split; [lia | exact Hps].
  - destruct (uniform (x_min self) (x_max self) g) as [x g1].
    destruct (uniform (y_min self) (y_max self) g1) as [y g2].
    destruct (uniform (of_int 0) (of_int 2 * np_pi) g2) as [theta g3].
    destruct (IH (ps ++ [(weight, {| st_x := x; st_y := y; st_theta := theta |})])
                g3) as [Hlen Hw].
    { apply Forall_app. split; [exact Hps|]. repeat constructor. }
    split; [|exact Hw]. rewrite Hlen, length_app. simpl. lia.
Qed.

(** X3.  Both initialisations divide [1.0] by the particle count before
    they draw or build anything: a count of 0 raises [ZeroDivisionError]
    (no draw is made), a negative count gives an empty particle set, and a
    count [n >= 1] gives exactly [n] particles of weight [1.0 / n], those
    of the known pose all carrying that pose. *)
Theorem initialization_by_particle_count
    (self : ParticleFilter F) (robot : state F) (g : G) :
  (n_particles self = 0%Z ->
   particle_initialize_uniform_original_state_known self robot
   = Raise ZeroDivisionError
   /\ particle_initialize_uniform_original_state_unknown self g
      = (Raise ZeroDivisionError, g))
  /\ ((n_particles self < 0)%Z ->
      particle_initialize_uniform_original_state_known self robot
      = Ok (set_particles self (Some []))
      /\ particle_initialize_uniform_original_state_unknown self g
         = (Ok (set_particles self (Some [])), g))
  /\ ((1 <= n_particles self)%Z ->
      particle_initialize_uniform_original_state_known self robot
      = Ok (set_particles self
              (Some (repeat (one / of_int (n_particles self), robot)
                       (Z.to_nat (n_particles self)))))
      /\ exists (ps : list (particle F)) (g' : G),
          particle_initialize_uniform_original_state_unknown self g
          = (Ok (set_particles self (Some ps)), g')
          /\ List.length ps = Z.to_nat (n_particles self)
          /\ Forall (fun p => fst p = one / of_int (n_particles self)) ps).
Proof.
  unfold particle_initialize_uniform_original_state_known,
    particle_initialize_uniform_original_state_unknown, py_div_int.
  split; [|split]; intros Hn.
  - rewrite Hn. split; reflexivity.
  - destruct (Z.eqb_spec (n_particles self) 0) as [H0|_]; [lia|].
    replace (Z.to_nat (n_particles self)) with 0%nat by lia.
    split; reflexivity.
  - destruct (Z.eqb_spec (n_particles self) 0) as [H0|_]; [lia|].
    split; [reflexivity|].
    destruct (@initialize_unknown_loop_count self
                (one / of_int (n_particles self))
                (Z.to_nat (n_particles self)) [] g (Forall_nil _))
      as [Hlen Hw].
    destruct (initialize_unknown_loop self (one / of_int (n_particles self))
                (Z.to_nat (n_particles self)) [] g) as [ps g'].
    exists ps, g'. split; [reflexivity|]. split; [exact Hlen | exact Hw].
Qed.

(** *** [resample] and the cycle at their edges *)

Lemma resample_nothing (samples : list (particle F)) (N : Z) (name : string)
    (g : G) :
  known_algorithm name -> (N <= 0)%Z ->
  resample samples N name g = (Ok (Some []), g).
Proof.
  intros [-> | ->] HN; unfold resample, multinomial, stratified;
    replace (Z.to_nat N) with 0%nat by lia; reflexivity.
Qed.

Lemma resample_empty (N : Z) (name : string) (g : G) :
  known_algorithm name -> (1 <= N)%Z ->
  fst (resample [] N name g) = Raise IndexError.
Proof.
  intros Hname HN.
  assert (Hk : exists k, Z.to_nat N = S k) by (exists (Z.to_nat (N - 1)); lia).
  destruct Hk as [k Hk].
  destruct Hname as [-> | ->]; unfold resample; cbn [String.eqb Ascii.eqb
    Bool.eqb andb]; unfold bind_rand.
  - pose proof (@multinomial_loop_raises F A G RS [] [] N k [] g
                  (Forall_nil _)) as H.
    unfold multinomial. cbn [map cumsum]. rewrite Hk.
    destruct (multinomial_loop [] [] N (S k) [] g) as [[r|e] g'];
      simpl in H; [discriminate | injection H as ->; reflexivity].
  - pose proof (@stratified_loop_raises F A G RS [] [] N k 0%Z [] g
                  (Forall_nil _)) as H.
    unfold stratified. cbn [map cumsum]. rewrite Hk.
    destruct (stratified_loop [] [] N (S k) 0 [] g) as [[r|e] g'];
      simpl in H; [discriminate | injection H as ->; reflexivity].
Qed.

(** X4.  [resample] at its edges: a name that is neither ['MULTINOMIAL']
    nor ['STRATIFIED'] gives [None] and draws nothing; with a known name a
    target count [N <= 0] gives the empty list and draws nothing, whatever
    the samples, and an empty list of samples with [N >= 1] raises
    [IndexError]. *)
Theorem resample_at_its_edges
    (samples : list (particle F)) (N : Z) (name : string) (g : G) :
  (name <> "MULTINOMIAL"%string -> name <> "STRATIFIED"%string ->
   resample samples N name g = (Ok None, g))
  /\ (known_algorithm name -> (N <= 0)%Z ->
      resample samples N name g = (Ok (Some []), g))
  /\ (known_algorithm name -> (1 <= N)%Z ->
      fst (resample [] N name g) = Raise IndexError).
Proof.
  split; [|split].
  - intros HM HS. unfold resample.
    destruct (String.eqb_spec name "MULTINOMIAL") as [?|_]; [contradiction|].
    destruct (String.eqb_spec name "STRATIFIED") as [?|_]; [contradiction|].
    reflexivity.
  - apply resample_nothing.
  - apply resample_empty.
Qed.

Lemma normalize_weights_nil : normalize_weights (@nil (particle F)) = Ok [].
Proof.
  unfold normalize_weights.
  destruct (sum_weights (@nil (particle F)) <? lit 1 10000000); reflexivity.
Qed.

Lemma update_of_nil (self : ParticleFilter F) (fwd ang : F)
    (measurements lms : list (F * F)) (g : G) :
  particles self = Some [] ->
  update self fwd ang measurements lms g
  = match needs_resampling (set_particles self (Some [])) with
    | Ok true =>
        match resample [] (n_particles self) (resampling_algorithm self) g with
        | (Ok r, g') => (Ok (set_particles (set_particles self (Some [])) r), g')
        | (Raise e, g') => (Raise e, g')
        end
    | Ok false => (Ok (set_particles self (Some [])), g)
    | Raise e => (Raise e, g)
    end.
Proof.
  intros Hp. unfold update, bind_rand, lift, ret. rewrite Hp.
  cbn [update_loop]. unfold ret. rewrite normalize_weights_nil.
  destruct (needs_resampling (set_particles self (Some []))) as [[|]|e];
    reflexivity.
Qed.

(** X5.  The cycle on a filter that holds no particle (what a negative
    particle count leaves): the triggers of [ParticleFilterNEPR] and
    [ParticleFilterMWR] divide by zero; with the trigger of
    [ParticleFilterSIR] and a known algorithm the resampling raises
    [IndexError] for a count [>= 1] and returns the empty set for a count
    [<= 0]. *)
Theorem update_of_an_empty_particle_set
    (self : ParticleFilter F) (fwd ang : F)
    (measurements lms : list (F * F)) (g : G) :
  particles self = Some [] ->
  (class self <> ParticleFilterSIR ->
   update self fwd ang measurements lms g = (Raise ZeroDivisionError, g))
  /\ (class self = ParticleFilterSIR ->
      known_algorithm (resampling_algorithm self) ->
      ((1 <= n_particles self)%Z ->
       fst (update self fwd ang measurements lms g) = Raise IndexError)
      /\ ((n_particles self <= 0)%Z ->
          exists self',
            update self fwd ang measurements lms g = (Ok self', g)
            /\ particles self' = Some []
            /\ same_configuration self self')).
Proof.
  intros Hp. rewrite (@update_of_nil self fwd ang measurements lms g Hp).
  unfold needs_resampling. cbn [particles set_particles class].
  split.
  - intros Hc. destruct (class self) as [|t|t]; [congruence| |].
    + unfold NEPR_needs_resampling. cbn [fold_left].
      now rewrite py_div_by_zero.
    + unfold MWR_needs_resampling. cbn [fold_left].
      now rewrite py_div_by_zero.
  - intros Hc Hname. rewrite Hc. unfold SIR_needs_resampling. split; intros HN.
    + pose proof (@resample_empty (n_particles self)
                    (resampling_algorithm self) g Hname HN) as H.
      destruct (resample [] (n_particles self) (resampling_algorithm self) g)
        as [[r|e] g']; simpl in H; [discriminate|].
      injection H as ->. reflexivity.
    + rewrite (@resample_nothing [] (n_particles self)
                 (resampling_algorithm self) g Hname HN).
      eexists. split; [reflexivity|]. split; [reflexivity|].
      repeat split.
Qed.

(** *** [World] *)

Lemma existsb_false_Forall {T : Type} (f : T -> bool) (l : list T) :
  existsb f l = false -> Forall (fun v => f v = false) l.
Proof.
  induction l as [|v l IH]; simpl; intros H; [constructor|].
  apply orb_false_iff in H. destruct H as [Hv Hl].
  constructor; [exact Hv | apply IH, Hl].
Qed.


End Edges.

(** *** The motion of the robot and of the particles without noise *)

Section NoiseFree.

Context {F : Type} {A : Arith F} {E : Elementary F}.
Context {G : Type} {RS : RandomSource F G}.

Local Open Scope num_scope.

Hypothesis normal_is_exact :
  forall (mu sigma : F) (g : G), fst (normal mu sigma g) = mu.

Hypothesis multivariate_normal_is_exact :
  forall (mean cov : F * F * F) (g : G),
    fst (multivariate_normal mean cov g) = mean.

(** X22.  When the generator adds no noise, the two process models of the
    filter agree, and a particle at the pose of the robot is moved exactly
    as [Robot.move] moves the robot in a world of the size of the filter's
    upper limits: the filter's process model is the robot's motion. *)
Theorem process_models_follow_the_robot
    (self : ParticleFilter F) (robot : Robot F)
    (desired_distance desired_rotation : F) (Q : F * F * F) (g1 g2 g3 : G) :
  fst (propagate_sample self (robot_state robot) desired_distance
         desired_rotation g1)
  = fst (propagate_sample_Q self (robot_state robot) desired_distance
           desired_rotation Q g2)
  /\ robot_state
       (fst (move robot desired_distance desired_rotation
               (x_max self) (y_max self) g3))
     = fst (propagate_sample self (robot_state robot) desired_distance
              desired_rotation g1).
Proof.
  assert (Hsample :
            fst (propagate_sample self (robot_state robot) desired_distance
                   desired_rotation g1)
            = validate_state self
                {| st_x := robot_x robot
                           + desired_distance * np_cos (robot_theta robot);
                   st_y := robot_y robot
                           + desired_distance * np_sin (robot_theta robot);
                   st_theta := robot_theta robot + desired_rotation |}).
  { unfold propagate_sample.
    pose proof (normal_is_exact desired_distance (fst (process_noise self)) g1)
      as Hd.
    destruct (normal desired_distance (fst (process_noise self)) g1)
      as [d g'].
    pose proof (normal_is_exact desired_rotation (snd (process_noise self)) g')
      as Ht.
    destruct (normal desired_rotation (snd (process_noise self)) g')
      as [t g''].
    cbn [fst] in Hd, Ht. subst d t. reflexivity. }
  rewrite Hsample. split.
  - unfold propagate_sample_Q. destruct Q as [[Q0 Q1] Q2].
    match goal with
    | |- context [multivariate_normal ?m ?c g2] =>
        pose proof (multivariate_normal_is_exact m c g2) as Hm;
        destruct (multivariate_normal m c g2) as [[[m0 m1] m2] g']
    end.
    cbn [fst] in Hm. injection Hm as -> -> ->. reflexivity.
  - unfold move.
    pose proof (normal_is_exact desired_distance (std_forward robot) g3) as Hd.
    destruct (normal desired_distance (std_forward robot) g3) as [d g'].
    pose proof (normal_is_exact desired_rotation (std_turn robot) g') as Ht.
    destruct (normal desired_rotation (std_turn robot) g') as [t g''].
    cbn [fst] in Hd, Ht. subst d t. reflexivity.
Qed.

End NoiseFree.

(** * Further properties in exact arithmetic *)

Module ExactCycle.

Import ExactProperties.

Local Open Scope R_scope.

(** *** [normalize_weights] on every list *)

Lemma divide_by_one (ws : list (particle R)) :
  map (fun p : particle R => (fdiv (fst p) 1, snd p)) ws = ws.
Proof.
  induction ws as [|[w s] ws IH]; cbn [map fst snd]; [reflexivity|].
  rewrite IH. arith. now rewrite Rdiv_1_r.
Qed.

Lemma normalize_weights_of_unit_sum (ws : list (particle R)) :
  sum_weights ws = 1 -> normalize_weights ws = Ok ws.
Proof.
  intros Hsum. unfold normalize_weights. rewrite Hsum.
  replace (fltb 1 (lit 1 10000000)) with false
    by (symmetry; apply ltb_false; arith; lra).
  rewrite comprehension_divide_nonzero by lra.
  now rewrite divide_by_one.
Qed.

(** X7.  Over the real numbers [normalize_weights] raises on no list and
    keeps the length and the states; on every non-empty list, whatever the
    sign of its weight sum, the returned weights sum to 1; and normalizing
    its result again changes nothing. *)
Theorem normalize_weights_is_total_and_idempotent (ws : list (particle R)) :
  exists out : list (particle R),
    normalize_weights ws = Ok out
    /\ List.length out = List.length ws
    /\ map snd out = map snd ws
    /\ (ws <> [] -> sum_weights out = 1)
    /\ normalize_weights out = Ok out.
Proof.
  destruct ws as [|p ws'].
  - exists []. rewrite normalize_weights_nil. repeat split. congruence.
  - set (ws := p :: ws').
    assert (Hlen : 0 < IZR (Z.of_nat (List.length ws)))
      by (apply of_nat_pos; simpl; lia).
    assert (Hout : exists out,
               normalize_weights ws = Ok out
               /\ List.length out = List.length ws
               /\ map snd out = map snd ws /\ sum_weights out = 1).
    { unfold normalize_weights.
      destruct (fltb (sum_weights ws) (lit 1 10000000)) eqn:Hlt.
      - rewrite comprehension_reinitialize by (simpl; lia).
        eexists. split; [reflexivity|]. split; [apply length_map|].
        split; [now rewrite map_map|].
        rewrite sum_weights_constant, INR_IZR_INZ. unfold one. arith.
        field. lra.
      - apply ltb_false in Hlt. arith.
        rewrite comprehension_divide_nonzero by lra.
        eexists. split; [reflexivity|]. split; [apply length_map|].
        split; [now rewrite map_map|].
        rewrite sum_weights_scaled. field. lra. }
    destruct Hout as (out & Hrun & Hl & Hs & Hsum).
    exists out. split; [exact Hrun|]. split; [exact Hl|]. split; [exact Hs|].
    split; [intros _; exact Hsum|].
    now apply normalize_weights_of_unit_sum.
Qed.

(** *** The triggers on normalized weights *)

Lemma sum_weights_squared_shift (ps : list (particle R)) : forall acc : R,
  fold_left (fun s par => fadd s (sqr (fst par))) ps acc
  = acc + sum_weights_squared ps.
Proof.
  unfold sum_weights_squared, zero.
  induction ps as [|p ps IH]; intros acc; cbn [fold_left]; arith; [lra|].
  rewrite (IH (acc + sqr (fst p))), (IH (0 + sqr (fst p))). lra.
Qed.

Lemma sum_weights_squared_cons (p : particle R) (ps : list (particle R)) :
  sum_weights_squared (p :: ps) = fst p * fst p + sum_weights_squared ps.
Proof.
  unfold sum_weights_squared at 1. cbn [fold_left].
  rewrite sum_weights_squared_shift. unfold zero, sqr. arith. lra.
Qed.

Lemma sum_weights_squared_nonneg (ps : list (particle R)) :
  0 <= sum_weights_squared ps.
Proof.
  induction ps as [|p ps IH].
  - unfold sum_weights_squared, zero. cbn [fold_left]. arith. lra.
  - rewrite sum_weights_squared_cons. nra.
Qed.

(** The square of a sum of [n] numbers is at most [n] times the sum of
    their squares. *)
Lemma square_of_sum (ps : list (particle R)) :
  sum_weights ps * sum_weights ps
  <= INR (List.length ps) * sum_weights_squared ps.
Proof.
  induction ps as [|p ps IH].
  - unfold sum_weights, sum_weights_squared, zero. cbn [fold_left List.length INR].
    arith. lra.
  - rewrite sum_weights_cons, sum_weights_squared_cons.
    cbn [List.length]. rewrite S_INR.
    pose proof (sum_weights_squared_nonneg ps) as Hq.
    pose proof (pos_INR (List.length ps)) as Hn.
    set (n := INR (List.length ps)) in *.
    set (q := sum_weights_squared ps) in *.
    set (t := sum_weights ps) in *.
    set (w := fst p).
    destruct (Req_dec n 0) as [Hz|Hnz].
    + assert (Ht : t = 0) by nra. rewrite Hz, Ht. nra.
    + assert (Hpos : 0 < n) by lra.
      assert (Hmix : 2 * w * t <= n * (w * w) + q).
      { assert (0 <= n * (n * (w * w) + q - 2 * w * t)).
        { replace (n * (n * (w * w) + q - 2 * w * t))
            with ((n * w - t) * (n * w - t) + (n * q - t * t)) by ring.
          pose proof (Rle_0_sqr (n * w - t)) as Hsq. unfold Rsqr in Hsq. lra. }
        nra. }
      nra.
Qed.

Lemma weights_below_their_sum (ps : list (particle R)) :
  Forall (fun p => 0 <= fst p) ps ->
  0 <= sum_weights ps /\ Forall (fun p => fst p <= sum_weights ps) ps.
Proof.
  induction 1 as [|p ps Hp _ [IHs IHw]].
  - split; [|constructor]. unfold sum_weights, zero. cbn [fold_left]. arith. lra.
  - rewrite sum_weights_cons. split; [lra|]. constructor; [lra|].
    eapply Forall_impl; [|exact IHw]. intros q Hq. cbn beta in *. lra.
Qed.

Lemma sum_weights_squared_below_sum (ps : list (particle R)) :
  Forall (fun p => 0 <= fst p <= 1) ps ->
  sum_weights_squared ps <= sum_weights ps.
Proof.
  induction 1 as [|p ps Hp _ IH].
  - unfold sum_weights, sum_weights_squared, zero. cbn [fold_left]. arith. lra.
  - rewrite sum_weights_cons, sum_weights_squared_cons. nra.
Qed.

Lemma max_weight_from (ps : list (particle R)) : forall m0 : R,
  let M := fold_left (fun m par => py_max m (fst par)) ps m0 in
  m0 <= M
  /\ Forall (fun p => fst p <= M) ps
  /\ (M = m0 \/ Exists (fun p => fst p = M) ps).
Proof.
  induction ps as [|p ps IH]; intros m0; cbn [fold_left].
  - split; [lra|]. split; [constructor | left; reflexivity].
  - destruct (IH (py_max m0 (fst p))) as (Hge & Hall & Hor).
    set (M := fold_left (fun m par => py_max m (fst par)) ps
                (py_max m0 (fst p))) in *.
    assert (Hmax : m0 <= py_max m0 (fst p) /\ fst p <= py_max m0 (fst p)
                   /\ (py_max m0 (fst p) = m0 \/ py_max m0 (fst p) = fst p)).
    { unfold py_max. arith. destruct (Exact.ltb m0 (fst p)) eqn:Hlt.
      - apply ltb_true in Hlt. split; [lra|]. split; [lra|]. now right.
      - apply ltb_false in Hlt. split; [lra|]. split; [lra|]. now left. }
    destruct Hmax as (H1 & H2 & H3).
    split; [lra|]. split; [constructor; [lra | exact Hall]|].
    destruct Hor as [HM | HE]; [|right; now apply Exists_cons_tl].
    destruct H3 as [H3 | H3].
    + left. congruence.
    + right. apply Exists_cons_hd. congruence.
Qed.

Lemma sum_below_count_times_bound (ps : list (particle R)) (M : R) :
  Forall (fun p => fst p <= M) ps ->
  sum_weights ps <= INR (List.length ps) * M.
Proof.
  induction 1 as [|p ps Hp _ IH].
  - unfold sum_weights, zero. cbn [fold_left List.length INR]. arith. lra.
  - rewrite sum_weights_cons. cbn [List.length]. rewrite S_INR. lra.
Qed.

(** X8.  On weights that sum to 1, as [normalize_weights] leaves them, no
    trigger divides by zero; and when no weight is negative the triggers
    of [ParticleFilterNEPR] and [ParticleFilterMWR] never resample for a
    threshold of at most 1 and always resample for a threshold above the
    number of particles. *)
Theorem triggers_on_normalized_weights
    (self : ParticleFilter R) (ps : list (particle R)) :
  particles self = Some ps ->
  sum_weights ps = 1 ->
  exists b : bool,
    needs_resampling self = Ok b
    /\ (Forall (fun p => 0 <= fst p) ps ->
        forall threshold : R,
          class self = ParticleFilterNEPR threshold
          \/ class self = ParticleFilterMWR threshold ->
          (threshold <= 1 -> b = false)
          /\ (INR (List.length ps) < threshold -> b = true)).
Proof.
  intros Hp Hsum. unfold needs_resampling. rewrite Hp.
  pose proof (square_of_sum ps) as Hcs. rewrite Hsum in Hcs.
  pose proof (sum_weights_squared_nonneg ps) as Hq0.
  pose proof (pos_INR (List.length ps)) as Hn0.
  assert (Hn : 0 < INR (List.length ps)) by nra.
  assert (Hq : 0 < sum_weights_squared ps) by nra.
  destruct (max_weight_from ps zero) as (HM0 & HMall & HMor). cbn zeta in *.
  fold (max_weight ps) in HM0, HMall, HMor.
  pose proof (sum_below_count_times_bound HMall) as HsM. rewrite Hsum in HsM.
  assert (Hz : zero = 0) by (unfold zero; arith; lra).
  rewrite Hz in HM0, HMor.
  assert (HM : 0 < max_weight ps) by nra.
  destruct (class self) as [|t|t].
  - exists true. split; [reflexivity|]. intros _ threshold [H|H]; discriminate.
  - unfold NEPR_needs_resampling. fold (sum_weights_squared ps).
    rewrite py_div_nonzero by lra. cbn [bind].
    eexists. split; [reflexivity|].
    intros Hpos threshold [[= <-] | H]; [|discriminate].
    destruct (weights_below_their_sum Hpos) as [_ Hle]. rewrite Hsum in Hle.
    assert (H01 : Forall (fun p => 0 <= fst p <= 1) ps).
    { rewrite Forall_forall in *. intros p Hin. split; auto. }
    pose proof (sum_weights_squared_below_sum H01) as Hqs. rewrite Hsum in Hqs.
    unfold one. arith. set (q := sum_weights_squared ps) in *.
    assert (Hlo : 1 <= 1 / q).
    { apply Rmult_le_reg_r with q; [lra|]. field_simplify; lra. }
    assert (Hhi : 1 / q <= INR (List.length ps)).
    { apply Rmult_le_reg_r with q; [lra|]. field_simplify; lra. }
    split; intros Ht.
    + apply ltb_false. lra.
    + apply ltb_true. lra.
  - unfold MWR_needs_resampling. fold (max_weight ps).
    rewrite py_div_nonzero by lra. cbn [bind].
    eexists. split; [reflexivity|].
    intros Hpos threshold [H | [= <-]]; [discriminate|].
    destruct (weights_below_their_sum Hpos) as [_ Hle]. rewrite Hsum in Hle.
    assert (HM1 : max_weight ps <= 1).
    { destruct HMor as [H0 | HE]; [lra|].
      apply Exists_exists in HE. destruct HE as (p & Hin & <-).
      rewrite Forall_forall in Hle. now apply Hle. }
    unfold one. arith. set (M := max_weight ps) in *.
    assert (Hlo : 1 <= 1 / M).
    { apply Rmult_le_reg_r with M; [lra|]. field_simplify; lra. }
    assert (Hhi : 1 / M <= INR (List.length ps)).
    { apply Rmult_le_reg_r with M; [lra|]. field_simplify; lra. }
    split; intros Ht.
    + apply ltb_false. lra.
    + apply ltb_true. lra.
Qed.

(** *** The likelihood of a state *)

Lemma likelihood_factor (z e sigma : R) :
  sigma <> 0 ->
  0 < exp (- sqr (z - e) / (2 * sqr sigma)) <= 1.
Proof.
  intros Hs. split; [apply exp_pos|].
  unfold sqr. arith.
  assert (Hd : 0 < 2 * (sigma * sigma)) by nra.
  assert (Hx : - ((z - e) * (z - e)) / (2 * (sigma * sigma)) <= 0).
  { pose proof (Rinv_0_lt_compat _ Hd) as Hi. unfold Rdiv.
    pose proof (Rle_0_sqr (z - e)) as Hsq. unfold Rsqr in Hsq. nra. }
  destruct Hx as [Hlt | Heq].
  - left. rewrite <- exp_0. now apply exp_increasing.
  - right. rewrite Heq. apply exp_0.
Qed.

Lemma likelihood_loop_bounds (self : ParticleFilter R) (sample : state R)
    (measurement : list (R * R)) (lms : list (R * R)) :
  fst (measurement_noise self) <> 0 ->
  snd (measurement_noise self) <> 0 ->
  forall (i : nat) (acc : R),
    (i + List.length lms <= List.length measurement)%nat ->
    0 < acc ->
    exists l : R,
      likelihood_loop self sample measurement lms i acc = Ok l
      /\ 0 < l <= acc.
Proof.
  intros H1 H2.
  induction lms as [|lm rest IH]; intros i acc Hlen Hacc; cbn [likelihood_loop].
  - exists acc. split; [reflexivity | lra].
  - cbn [List.length] in Hlen. unfold index.
    destruct (nth_error measurement i) as [z|] eqn:Hz.
    + cbn [bind]. arith.
      pose proof (likelihood_factor (fst z)
        (sqrt ((st_x sample - fst lm) * (st_x sample - fst lm)
               + (st_y sample - snd lm) * (st_y sample - snd lm))) H1) as Hd.
      pose proof (likelihood_factor (snd z)
        (Exact.arctan2 (st_y sample - snd lm) (st_x sample - fst lm)) H2) as Ha.
      set (pd := exp _) in Hd |- *. set (pa := exp _) in Ha |- *.
      destruct (IH (S i) (acc * (pd * pa)) ltac:(lia)) as (l & Hl & Hb).
      { apply Rmult_lt_0_compat; [lra|]. apply Rmult_lt_0_compat; lra. }
      exists l. split; [exact Hl|]. split; [lra|].
      assert (pd * pa <= 1) by nra.
      assert (acc * (pd * pa) <= acc) by nra. lra.
    + apply nth_error_None in Hz. lia.
Qed.

(** X9.  With a measurement for every landmark and measurement noise that
    is not zero, the likelihood [compute_likelihood] returns lies in the
    interval (0, 1]. *)
Theorem likelihood_is_positive_and_at_most_one
    (self : ParticleFilter R) (sample : state R)
    (measurement lms : list (R * R)) :
  fst (measurement_noise self) <> 0 ->
  snd (measurement_noise self) <> 0 ->
  (List.length lms <= List.length measurement)%nat ->
  exists l : R,
    compute_likelihood self sample measurement lms = Ok l /\ 0 < l <= 1.
Proof.
  intros H1 H2 Hlen. unfold compute_likelihood.
  assert (H01 : (0 : R) < one) by (unfold one; arith; lra).
  destruct (@likelihood_loop_bounds self sample measurement lms H1 H2 0%nat one
              Hlen H01) as (l & Hl & Hb).
  exists l. split; [exact Hl|]. unfold one in Hb. arith. lra.
Qed.

Lemma likelihood_loop_of_expected (self : ParticleFilter R) (s : state R)
    (lms : list (R * R)) :
  forall (pre : list (R * R)) (acc : R),
    likelihood_loop self s (pre ++ map (expected_measurement s) lms) lms
      (List.length pre) acc = Ok acc.
Proof.
  induction lms as [|lm rest IH]; intros pre acc; cbn [likelihood_loop map].
  - reflexivity.
  - unfold index. rewrite nth_error_app2 by lia. rewrite Nat.sub_diag.
    cbn [nth_error bind].
    replace (pre ++ expected_measurement s lm
                  :: map (expected_measurement s) rest)
      with ((pre ++ [expected_measurement s lm])
            ++ map (expected_measurement s) rest)
      by (rewrite <- app_assoc; reflexivity).
    replace (S (List.length pre))
      with (List.length (pre ++ [expected_measurement s lm]))
      by (rewrite length_app; cbn [List.length]; lia).
    rewrite IH. f_equal. unfold expected_measurement, sqr. arith.
    rewrite !Rminus_diag. rewrite !Rmult_0_l, Ropp_0.
    unfold Rdiv. rewrite !Rmult_0_l, exp_0. lra.
Qed.

Section NoNoise.

Context {G : Type} {RS : RandomSource R G}.

Hypothesis normal_is_exact :
  forall (mu sigma : R) (g : G), fst (normal mu sigma g) = mu.

Lemma measure_loop_without_noise (robot : Robot R) (lms : list (R * R)) :
  forall (acc : list (R * R)) (g : G),
    fst (measure_loop robot lms acc g)
    = acc ++ map (expected_measurement (robot_state robot)) lms.
Proof.
  induction lms as [|lm rest IH]; intros acc g; cbn [measure_loop map].
  - cbn [fst]. now rewrite app_nil_r.
  - pose proof (normal_is_exact
      (np_sqrt ((robot_x robot - fst lm) * (robot_x robot - fst lm)
                + (robot_y robot - snd lm) * (robot_y robot - snd lm)))
      (std_meas_distance robot) g) as Hd.
    destruct (normal _ (std_meas_distance robot) g) as [zd g1].
    pose proof (normal_is_exact
      (np_arctan2 (robot_y robot - snd lm) (robot_x robot - fst lm))
      (std_meas_angle robot) g1) as Ha.
    destruct (normal _ (std_meas_angle robot) g1) as [za g2].
    cbn [fst] in Hd, Ha. subst zd za.
    rewrite IH, <- app_assoc. reflexivity.
Qed.

(** X10.  When the generator adds no noise ([np.random.normal] returns its
    mean), the measurement [Robot.measure] takes has likelihood 1 at the
    robot's own pose, whatever the landmarks and the (non-zero)
    measurement noise of the filter. *)
Theorem measurement_without_noise_has_likelihood_one
    (self : ParticleFilter R) (robot : Robot R) (lms : list (R * R)) (g : G) :
  fst (measurement_noise self) <> 0 ->
  snd (measurement_noise self) <> 0 ->
  compute_likelihood self (robot_state robot) (fst (measure robot lms g)) lms
  = Ok 1.
Proof.
  intros _ _. unfold measure. rewrite measure_loop_without_noise.
  unfold compute_likelihood.
  rewrite (@likelihood_loop_of_expected self (robot_state robot) lms [] one).
  unfold one. arith. reflexivity.
Qed.

End NoNoise.

(** *** The weighted mean of a well-formed particle set *)

Lemma average_state_in_box (hx hy ht : R) (ps : list (particle R)) :
  Forall (fun p => 0 <= fst p
                   /\ 0 <= st_x (snd p) < hx
                   /\ 0 <= st_y (snd p) < hy
                   /\ 0 <= st_theta (snd p) < ht) ps ->
  0 <= sum_weights ps
  /\ (0 <= st_x (average_state ps) <= hx * sum_weights ps
      /\ (0 < sum_weights ps -> st_x (average_state ps) < hx * sum_weights ps))
  /\ (0 <= st_y (average_state ps) <= hy * sum_weights ps
      /\ (0 < sum_weights ps -> st_y (average_state ps) < hy * sum_weights ps))
  /\ (0 <= st_theta (average_state ps) <= ht * sum_weights ps
      /\ (0 < sum_weights ps
          -> st_theta (average_state ps) < ht * sum_weights ps)).
Proof.
  induction 1 as [|p ps (Hw & Hx & Hy & Ht) _ (IHs & IHx & IHy & IHt)].
  - unfold average_state, sum_weights, zero. cbn [fold_left]. arith.
    repeat split; lra.
  - rewrite average_state_cons, sum_weights_cons. arith.
    set (w := fst p) in *. set (W := sum_weights ps) in *.
    split; [lra|].
    destruct (Rle_lt_or_eq_dec 0 W IHs) as [HW | HW];
      destruct (Rle_lt_or_eq_dec 0 w Hw) as [Hw' | Hw'].
    + repeat split; try intros _; nra.
    + repeat split; try intros _; nra.
    + repeat split; try intros _; nra.
    + repeat split; try intros Hc; nra.
Qed.

Lemma average_state_in_world (self : ParticleFilter R)
    (ps : list (particle R)) :
  well_formed self ps -> in_world self (average_state ps).
Proof.
  intros (_ & Hsum & Hall).
  destruct (@average_state_in_box (x_max self) (y_max self) (2 * PI) ps)
    as (_ & (Hx & Hx') & (Hy & Hy') & (Ht & Ht')).
  { eapply Forall_impl; [|exact Hall]. intros p (Hw & Hx & Hy & Ht).
    repeat split; tauto. }
  rewrite Hsum in *. unfold in_world. repeat split; try tauto.
  - specialize (Hx' ltac:(lra)). lra.
  - specialize (Hy' ltac:(lra)). lra.
  - specialize (Ht' ltac:(lra)). lra.
Qed.

(** X11.  The estimate [get_average_state] returns for a well-formed
    particle set (weights not negative and of sum 1, states inside the
    world) is itself a state inside the world. *)
Theorem get_average_state_stays_in_the_world
    (self : ParticleFilter R) (ps : list (particle R)) :
  particles self = Some ps ->
  well_formed self ps ->
  exists s : state R, get_average_state self = Ok s /\ in_world self s.
Proof.
  intros Hp Hwf. unfold get_average_state. rewrite Hp.
  exists (average_state ps). split; [reflexivity|].
  now apply average_state_in_world.
Qed.

(** *** The motion model and the cyclic world *)

Lemma remainder_fixed (a b : R) : 0 <= a < b -> Exact.remainder a b = a.
Proof.
  intros [Ha Hb]. unfold Exact.remainder.
  assert (Hq : 0 <= a / b < 1).
  { split.
    - apply Rmult_le_reg_r with b; [lra|]. field_simplify; lra.
    - apply Rmult_lt_reg_r with b; [lra|]. field_simplify; lra. }
  assert (Hz : Int_part (a / b) = 0%Z).
  { symmetry. apply Int_part_spec. cbn [IZR]. lra. }
  rewrite Hz. lra.
Qed.

Lemma validate_state_in_world (self : ParticleFilter R) (s : state R) :
  0 < x_max self -> 0 < y_max self -> in_world self (validate_state self s).
Proof.
  intros Hx Hy. unfold in_world, validate_state. arith.
  pose proof PI_RGT_0 as Hpi.
  split; [|split]; apply remainder_range; lra.
Qed.

(** X12.  [validate_state] leaves a state inside the world as it is, so
    that validating twice is validating once. *)
Theorem validate_state_fixes_the_world
    (self : ParticleFilter R) (s : state R) :
  0 < x_max self -> 0 < y_max self ->
  (in_world self s -> validate_state self s = s)
  /\ validate_state self (validate_state self s) = validate_state self s.
Proof.
  intros Hx Hy.
  assert (Hfix : forall t, in_world self t -> validate_state self t = t).
  { intros [x y th] (Hx' & Hy' & Ht'). unfold validate_state. arith.
    rewrite !remainder_fixed by assumption. reflexivity. }
  split; [apply Hfix|]. apply Hfix. now apply validate_state_in_world.
Qed.

Section Motion.

Context {G : Type} {RS : RandomSource R G}.

(** X13.  Whatever the generator draws, the two process models of the
    filter return a state inside the world, and [Robot.move] in a world of
    the same size leaves the robot inside it. *)
Theorem motion_stays_in_the_world
    (self : ParticleFilter R) (sample : state R) (robot : Robot R)
    (desired_distance desired_rotation : R) (Q : R * R * R) (g : G) :
  0 < x_max self -> 0 < y_max self ->
  in_world self
    (fst (propagate_sample self sample desired_distance desired_rotation g))
  /\ in_world self
       (fst (propagate_sample_Q self sample desired_distance desired_rotation
               Q g))
  /\ in_world self
       (robot_state
          (fst (move robot desired_distance desired_rotation
                  (x_max self) (y_max self) g))).
Proof.
  intros Hx Hy. split; [|split].
  - unfold propagate_sample.
    destruct (normal desired_distance _ g) as [d g1].
    destruct (normal desired_rotation _ g1) as [t g2]. cbn [fst].
    now apply validate_state_in_world.
  - unfold propagate_sample_Q. destruct Q as [[Q0 Q1] Q2].
    destruct (multivariate_normal _ _ g) as [[[m0 m1] m2] g1]. cbn [fst].
    now apply validate_state_in_world.
  - unfold move.
    destruct (normal desired_distance _ g) as [d g1].
    destruct (normal desired_rotation _ g1) as [t g2]. cbn [fst].
    unfold in_world, robot_state. arith. cbn [robot_x robot_y robot_theta].
    pose proof PI_RGT_0 as Hpi.
    split; [|split]; apply remainder_range; lra.
Qed.

End Motion.

(** *** The particle sets of the two initialisations *)

Lemma sum_weights_of_equal_weights (c : R) (ps : list (particle R)) :
  Forall (fun p => fst p = c) ps ->
  sum_weights ps = INR (List.length ps) * c.
Proof.
  induction 1 as [|p ps Hp _ IH].
  - unfold sum_weights, zero. cbn [fold_left List.length INR]. arith. lra.
  - rewrite sum_weights_cons, IH, Hp. cbn [List.length]. rewrite S_INR. lra.
Qed.

Lemma count_times_share (n : Z) :
  (1 <= n)%Z -> INR (Z.to_nat n) * (one / of_int n) = 1.
Proof.
  intros Hn. rewrite INR_IZR_INZ, Z2Nat.id by lia. unfold one. arith.
  assert (0 < IZR n) by (apply IZR_lt; lia). field. lra.
Qed.

Section Initialisation.

Context {G : Type} {RS : RandomSource R G}.

(** numpy documents the draws of [uniform(low, high)] as taken from the
    half-open interval [[low, high)]. *)
Hypothesis uniform_in_range :
  forall (lo hi : R) (g : G),
    lo < hi -> lo <= fst (uniform lo hi g) < hi.

Lemma initialize_unknown_loop_in_range (self : ParticleFilter R) (weight : R)
    (k : nat) :
  x_min self < x_max self -> y_min self < y_max self ->
  forall (ps : list (particle R)) (g : G),
    Forall (fun p => x_min self <= st_x (snd p) < x_max self
                     /\ y_min self <= st_y (snd p) < y_max self
                     /\ 0 <= st_theta (snd p) < 2 * PI) ps ->
    Forall (fun p => x_min self <= st_x (snd p) < x_max self
                     /\ y_min self <= st_y (snd p) < y_max self
                     /\ 0 <= st_theta (snd p) < 2 * PI)
      (fst (initialize_unknown_loop self weight k ps g)).
Proof.
  intros Hx Hy.
  induction k as [|k IH]; intros ps g Hps; cbn [initialize_unknown_loop].
  - exact Hps.
  - pose proof (uniform_in_range g Hx) as Hdx.
    destruct (uniform (x_min self) (x_max self) g) as [x g1].
    pose proof (uniform_in_range g1 Hy) as Hdy.
    destruct (uniform (y_min self) (y_max self) g1) as [y g2].
    assert (Hpi : of_int 0 < fmul (of_int 2) np_pi)
      by (arith; pose proof PI_RGT_0; lra).
    pose proof (uniform_in_range g2 Hpi) as Hdt.
    destruct (uniform (of_int 0) (fmul (of_int 2) np_pi) g2) as [theta g3].
    apply IH. apply Forall_app. split; [exact Hps|].
    constructor; [|constructor]. arith. repeat split; lra.
Qed.

(** X14.  With at least one particle, limits [0 <= x_min < x_max] and
    [0 <= y_min < y_max] and draws inside the interval asked for, the
    initialisation without a known pose returns a well-formed particle set
    (weights of sum 1, states inside the world), every state at or above
    the lower limits, and changes no other attribute of the filter. *)
Theorem initial_particles_are_well_formed (self : ParticleFilter R) (g : G) :
  (1 <= n_particles self)%Z ->
  0 <= x_min self < x_max self ->
  0 <= y_min self < y_max self ->
  exists (self' : ParticleFilter R) (g' : G) (ps : list (particle R)),
    particle_initialize_uniform_original_state_unknown self g = (Ok self', g')
    /\ particles self' = Some ps
    /\ same_configuration self self'
    /\ well_formed self' ps
    /\ Forall (fun p => x_min self <= st_x (snd p)
                        /\ y_min self <= st_y (snd p)) ps.
Proof.
  intros Hn Hx Hy.
  unfold particle_initialize_uniform_original_state_unknown, py_div_int.
  destruct (Z.eqb_spec (n_particles self) 0) as [H0|_]; [lia|].
  destruct (@initialize_unknown_loop_count R _ G _ self
              (one / of_int (n_particles self))
              (Z.to_nat (n_particles self)) [] g (Forall_nil _))
    as [Hlen Hw].
  pose proof (@initialize_unknown_loop_in_range self
                (one / of_int (n_particles self))
                (Z.to_nat (n_particles self)) ltac:(lra) ltac:(lra) [] g
                (Forall_nil _)) as Hin.
  destruct (initialize_unknown_loop self _ _ [] g) as [ps g'].
  cbn [fst List.length Nat.add] in Hlen, Hw, Hin.
  exists (set_particles self (Some ps)), g', ps.
  split; [reflexivity|]. split; [reflexivity|].
  split; [repeat split|]. split.
  - split; [|split].
    + intros ->. cbn [List.length] in Hlen. lia.
    + rewrite (sum_weights_of_equal_weights Hw), Hlen.
      now apply count_times_share.
    + rewrite Forall_forall in *. intros p Hp.
      specialize (Hw p Hp). specialize (Hin p Hp).
      destruct Hin as (Hpx & Hpy & Hpt).
      split.
      * rewrite Hw. unfold one. arith.
        assert (0 < IZR (n_particles self)) by (apply IZR_lt; lia).
        apply Rlt_le. apply Rdiv_lt_0_compat; lra.
      * unfold in_world. cbn [set_particles x_max y_max]. repeat split; lra.
  - eapply Forall_impl; [|exact Hin]. intros p (Hpx & Hpy & _). split; lra.
Qed.

End Initialisation.

(** X15.  Initialised at a known pose inside the world with at least one
    particle, the filter holds a well-formed particle set and its first
    estimate is that pose. *)
Theorem known_pose_is_the_first_estimate
    (self : ParticleFilter R) (robot : state R) :
  (1 <= n_particles self)%Z ->
  in_world self robot ->
  exists (self' : ParticleFilter R) (ps : list (particle R)),
    particle_initialize_uniform_original_state_known self robot = Ok self'
    /\ particles self' = Some ps
    /\ same_configuration self self'
    /\ well_formed self' ps
    /\ get_average_state self' = Ok robot.
Proof.
  intros Hn Hr.
  unfold particle_initialize_uniform_original_state_known, py_div_int.
  destruct (Z.eqb_spec (n_particles self) 0) as [H0|_]; [lia|]. cbn [bind].
  set (w := one / of_int (n_particles self)).
  set (k := Z.to_nat (n_particles self)).
  exists (set_particles self (Some (repeat (w, robot) k))), (repeat (w, robot) k).
  split; [reflexivity|]. split; [reflexivity|].
  split; [repeat split|].
  assert (Hall : Forall (fun p : particle R => fst p = w) (repeat (w, robot) k)).
  { apply Forall_forall. intros p Hp. apply repeat_spec in Hp. now subst p. }
  assert (Hkw : INR k * w = 1) by (now apply count_times_share).
  split.
  - split; [|split].
    + intros Hnil. apply (f_equal (@List.length _)) in Hnil.
      rewrite repeat_length in Hnil. cbn [List.length] in Hnil.
      unfold k in Hnil. lia.
    + rewrite (sum_weights_of_equal_weights Hall), repeat_length. exact Hkw.
    + apply Forall_forall. intros p Hp. apply repeat_spec in Hp. subst p.
      cbn [fst snd]. split; [|exact Hr].
      unfold w, one. arith.
      assert (0 < IZR (n_particles self)) by (apply IZR_lt; lia).
      apply Rlt_le. apply Rdiv_lt_0_compat; lra.
  - unfold get_average_state. cbn [set_particles particles].
    rewrite average_state_repeat. destruct robot as [x y th]. arith.
    f_equal. f_equal; rewrite Hkw; lra.
Qed.

(** *** What the resampling algorithms select *)

Lemma naive_search_from_positive (ws : list R) :
  forall (acc u : R) (m0 m : nat),
    acc < u ->
    naive_search_from (cumsum_from acc ws) u m0 = Ok m ->
    (m0 <= m)%nat
    /\ exists w : R, nth_error ws (m - m0) = Some w /\ 0 < w.
Proof.
  induction ws as [|w rest IH]; intros acc u m0 m Hacc Hs;
    cbn [cumsum_from naive_search_from] in Hs; [discriminate|].
  arith. destruct (Exact.ltb (acc + w) u) eqn:Hlt.
  - apply ltb_true in Hlt.
    destruct (IH (acc + w) u (S m0) m Hlt Hs) as (Hm & w' & Hw' & Hpos).
    split; [lia|]. exists w'. split; [|exact Hpos].
    replace (m - m0)%nat with (S (m - S m0)) by lia. exact Hw'.
  - apply ltb_false in Hlt. injection Hs as <-. split; [lia|].
    exists w. rewrite Nat.sub_diag. split; [reflexivity | lra].
Qed.

Lemma naive_search_positive (samples : list (particle R)) (u : R) (m : nat) :
  0 < u ->
  naive_search (cumsum (map fst samples)) u = Ok m ->
  exists q : particle R, index samples m = Ok q /\ In q samples /\ 0 < fst q.
Proof.
  intros Hu Hs.
  assert (Hw : exists w : R, nth_error (map fst samples) m = Some w /\ 0 < w).
  { unfold naive_search in Hs.
    destruct samples as [|p rest]; cbn [map cumsum naive_search_from] in Hs;
      [discriminate|].
    arith. destruct (Exact.ltb (fst p) u) eqn:Hlt.
    - apply ltb_true in Hlt.
      destruct (@naive_search_from_positive (map fst rest) (fst p) u 1%nat m
                  Hlt Hs) as (Hm & w & Hw & Hpos).
      exists w. split; [|exact Hpos]. cbn [map].
      replace m with (S (m - 1)) by lia. exact Hw.
    - apply ltb_false in Hlt. injection Hs as <-.
      exists (fst p). split; [reflexivity | lra]. }
  destruct Hw as (w & Hw & Hpos). rewrite nth_error_map in Hw.
  unfold index. destruct (nth_error samples m) as [q|] eqn:Hq; [|discriminate].
  cbn [option_map] in Hw. injection Hw as <-.
  exists q. split; [reflexivity|]. split; [|exact Hpos].
  eapply nth_error_In, Hq.
Qed.

Section Selection.

Context {G : Type} {RS : RandomSource R G}.

(** A draw between two positive numbers is positive. *)
Hypothesis uniform_positive :
  forall (lo hi : R) (g : G), 0 < lo -> 0 < hi -> 0 < fst (uniform lo hi g).

Lemma multinomial_loop_selects (samples : list (particle R)) (N : Z)
    (k : nat) :
  forall (acc out : list (particle R)) (g g' : G),
    multinomial_loop samples (cumsum (map fst samples)) N k acc g
    = (Ok out, g') ->
    Forall (fun p => exists q, In q samples /\ snd q = snd p /\ 0 < fst q)
      acc ->
    Forall (fun p => exists q, In q samples /\ snd q = snd p /\ 0 < fst q)
      out.
Proof.
  induction k as [|k IH]; intros acc out g g' Hrun Hacc;
    cbn [multinomial_loop] in Hrun.
  - unfold ret in Hrun. injection Hrun as <- _. exact Hacc.
  - unfold bind_rand, draw, lift in Hrun.
    assert (Hu : 0 < fst (uniform (lit 1 10000000000) (of_int 1) g))
      by (apply uniform_positive; arith; lra).
    destruct (uniform (lit 1 10000000000) (of_int 1) g) as [u g1].
    cbn [fst] in Hu.
    destruct (naive_search (cumsum (map fst samples)) u) as [m|e] eqn:Hs;
      [|discriminate].
    destruct (naive_search_positive samples Hu Hs) as (q & Hq & Hin & Hpos).
    rewrite Hq in Hrun.
    apply (IH _ _ _ _ Hrun). apply Forall_app. split; [exact Hacc|].
    constructor; [|constructor].
    exists q. split; [exact Hin|]. split; [reflexivity | exact Hpos].
Qed.

Lemma stratified_loop_selects (samples : list (particle R)) (N : Z)
    (k : nat) :
  (1 <= N)%Z ->
  forall (n : Z) (acc out : list (particle R)) (g g' : G),
    (0 <= n)%Z ->
    stratified_loop samples (cumsum (map fst samples)) N k n acc g
    = (Ok out, g') ->
    Forall (fun p => exists q, In q samples /\ snd q = snd p /\ 0 < fst q)
      acc ->
    Forall (fun p => exists q, In q samples /\ snd q = snd p /\ 0 < fst q)
      out.
Proof.
  intros HN.
  assert (HNpos : 0 < IZR N) by (apply IZR_lt; lia).
  induction k as [|k IH]; intros n acc out g g' Hn Hrun Hacc;
    cbn [stratified_loop] in Hrun.
  - unfold ret in Hrun. injection Hrun as <- _. exact Hacc.
  - unfold bind_rand, draw, lift in Hrun.
    assert (Hu : 0 < fst (uniform (lit 1 10000000000) (fdiv one (of_int N)) g)).
    { apply uniform_positive; unfold one; arith; [lra|].
      apply Rdiv_lt_0_compat; lra. }
    destruct (uniform (lit 1 10000000000) (fdiv one (of_int N)) g) as [u0 g1].
    cbn [fst] in Hu.
    assert (Hpos' : 0 < fadd u0 (fdiv (fmul (of_int n) (of_int 1)) (of_int N))).
    { arith. assert (0 <= IZR n) by (apply IZR_le; lia).
      assert (0 <= IZR n * 1 / IZR N).
      { unfold Rdiv. apply Rmult_le_pos; [lra|].
        apply Rlt_le. now apply Rinv_0_lt_compat. }
      lra. }
    destruct (naive_search (cumsum (map fst samples))
                (fadd u0 (fdiv (fmul (of_int n) (of_int 1)) (of_int N))))
      as [m|e] eqn:Hs; [|discriminate].
    destruct (naive_search_positive samples Hpos' Hs) as (q & Hq & Hin & Hpos).
    rewrite Hq in Hrun.
    apply (IH (n + 1)%Z _ _ _ _ ltac:(lia) Hrun). apply Forall_app. split; [exact Hacc|].
    constructor; [|constructor].
    exists q. split; [exact Hin|]. split; [reflexivity | exact Hpos].
Qed.

(** X16.  Whatever the weights and the target count, every particle that
    [resample] returns carries the state of an input particle whose weight
    is positive: a particle of weight zero (or below) is never selected. *)
Theorem resample_selects_positive_weights
    (samples : list (particle R)) (N : Z) (algorithm : string)
    (out : list (particle R)) (g g' : G) :
  resample samples N algorithm g = (Ok (Some out), g') ->
  Forall (fun p => exists q, In q samples /\ snd q = snd p /\ 0 < fst q) out.
Proof.
  unfold resample. intros Hrun.
  destruct (String.eqb algorithm "MULTINOMIAL").
  - unfold bind_rand, ret in Hrun.
    destruct (multinomial samples N g) as [[r|e] g1] eqn:Hm; [|discriminate].
    injection Hrun as <- _. unfold multinomial in Hm.
    eapply multinomial_loop_selects; [exact Hm | constructor].
  - destruct (String.eqb algorithm "STRATIFIED").
    + unfold bind_rand, ret in Hrun.
      destruct (stratified samples N g) as [[r|e] g1] eqn:Hm; [|discriminate].
      injection Hrun as <- _. unfold stratified in Hm.
      destruct (Z_lt_le_dec N 1) as [Hsmall | HN].
      * replace (Z.to_nat N) with 0%nat in Hm by lia.
        cbn [stratified_loop] in Hm. unfold ret in Hm.
        injection Hm as <- _. constructor.
      * eapply stratified_loop_selects;
          [exact HN | apply Z.le_refl | exact Hm | constructor].
    + unfold ret in Hrun. discriminate.
Qed.

End Selection.

(** *** One cycle of the filter *)

Lemma normalize_weights_keeps_form (P : state R -> Prop)
    (ws : list (particle R)) :
  ws <> [] ->
  Forall (fun p => 0 <= fst p /\ P (snd p)) ws ->
  exists out : list (particle R),
    normalize_weights ws = Ok out
    /\ List.length out = List.length ws
    /\ sum_weights out = 1
    /\ Forall (fun p => 0 <= fst p /\ P (snd p)) out.
Proof.
  intros Hne Hall.
  assert (Hpos : (1 <= List.length ws)%nat)
    by (destruct ws; [congruence | simpl; lia]).
  pose proof (of_nat_pos Hpos) as Hlen.
  unfold normalize_weights.
  destruct (fltb (sum_weights ws) (lit 1 10000000)) eqn:Hlt.
  - rewrite comprehension_reinitialize by lia.
    eexists. split; [reflexivity|]. split; [apply length_map|]. split.
    + rewrite sum_weights_constant, INR_IZR_INZ. unfold one. arith.
      field. lra.
    + apply Forall_map. eapply Forall_impl; [|exact Hall].
      intros p [_ Hp]. cbn [fst snd]. split; [|exact Hp].
      unfold one. arith. apply Rlt_le, Rdiv_lt_0_compat; lra.
  - apply ltb_false in Hlt. arith.
    rewrite comprehension_divide_nonzero by lra.
    eexists. split; [reflexivity|]. split; [apply length_map|]. split.
    + rewrite sum_weights_scaled. field. lra.
    + apply Forall_map. eapply Forall_impl; [|exact Hall].
      intros p [Hw Hp]. cbn [fst snd]. split; [|exact Hp].
      arith. unfold Rdiv. apply Rmult_le_pos; [exact Hw|].
      apply Rlt_le, Rinv_0_lt_compat. lra.
Qed.

Lemma triggers_do_not_raise (self : ParticleFilter R)
    (ps : list (particle R)) :
  particles self = Some ps ->
  sum_weights ps = 1 ->
  exists b : bool, needs_resampling self = Ok b.
Proof.
  intros Hp Hsum. unfold needs_resampling. rewrite Hp.
  destruct (class self) as [|t|t].
  - exists true. reflexivity.
  - unfold NEPR_needs_resampling. fold (sum_weights_squared ps).
    pose proof (square_of_sum ps) as Hcs. rewrite Hsum in Hcs.
    pose proof (sum_weights_squared_nonneg ps) as Hq0.
    pose proof (pos_INR (List.length ps)) as Hn0.
    rewrite py_div_nonzero by nra. cbn [bind]. eexists. reflexivity.
  - unfold MWR_needs_resampling. fold (max_weight ps).
    destruct (max_weight_from ps zero) as (HM0 & HMall & _). cbn zeta in *.
    fold (max_weight ps) in HM0, HMall.
    pose proof (sum_below_count_times_bound HMall) as HsM. rewrite Hsum in HsM.
    pose proof (pos_INR (List.length ps)) as Hn0.
    assert (Hz : zero = 0) by (unfold zero; arith; lra).
    rewrite Hz in HM0.
    rewrite py_div_nonzero by nra. cbn [bind]. eexists. reflexivity.
Qed.

Section Cycle.

Context {G : Type} {RS : RandomSource R G}.

(** numpy documents the draws of [uniform(low, high)] as taken from the
    half-open interval [[low, high)]. *)
Hypothesis uniform_below :
  forall (lo hi : R) (g : G), fst (uniform lo hi g) < hi.

Variable self : ParticleFilter R.
Variables robot_forward_motion robot_angular_motion : R.
Variables measurements landmarks : list (R * R).

Hypothesis x_max_positive : 0 < x_max self.
Hypothesis y_max_positive : 0 < y_max self.
Hypothesis distance_noise : fst (measurement_noise self) <> 0.
Hypothesis angle_noise : snd (measurement_noise self) <> 0.
Hypothesis enough_measurements :
  (List.length landmarks <= List.length measurements)%nat.

Lemma update_loop_keeps_form (ps : list (particle R)) :
  forall (acc : list (particle R)) (g : G),
    Forall (fun p => 0 <= fst p) ps ->
    Forall (fun p => 0 <= fst p /\ in_world self (snd p)) acc ->
    exists (out : list (particle R)) (g' : G),
      update_loop self ps robot_forward_motion robot_angular_motion
        measurements landmarks acc g = (Ok out, g')
      /\ List.length out = (List.length acc + List.length ps)%nat
      /\ Forall (fun p => 0 <= fst p /\ in_world self (snd p)) out.
Proof.
  induction ps as [|par rest IH]; intros acc g Hps Hacc; cbn [update_loop].
  - exists acc, g. split; [reflexivity|]. split; [simpl; lia | exact Hacc].
  - inversion Hps as [|? ? Hw Hrest]; subst.
    unfold bind_rand, lift.
    assert (Hin : in_world self
                    (fst (propagate_sample_Q self (snd par) robot_forward_motion
                            robot_angular_motion
                            (lit 7 100, lit 7 100, lit 1 10) g))).
    { unfold propagate_sample_Q.
      destruct (multivariate_normal _ _ g) as [[[m0 m1] m2] g1]. cbn [fst].
      now apply validate_state_in_world. }
    destruct (propagate_sample_Q self (snd par) robot_forward_motion
                robot_angular_motion (lit 7 100, lit 7 100, lit 1 10) g)
      as [s g1].
    cbn [fst] in Hin.
    assert (H01 : (0 : R) < one) by (unfold one; arith; lra).
    destruct (@likelihood_loop_bounds self s measurements landmarks
                distance_noise angle_noise 0%nat one enough_measurements H01)
      as (l & Hl & Hb).
    unfold compute_likelihood. rewrite Hl.
    destruct (IH (acc ++ [(fmul (fst par) l, s)]) g1 Hrest)
      as (out & g' & Hrun & Hlen & Hout).
    { apply Forall_app. split; [exact Hacc|]. constructor; [|constructor].
      cbn [fst snd]. split; [|exact Hin]. arith. apply Rmult_le_pos; lra. }
    exists out, g'. split; [exact Hrun|]. split; [|exact Hout].
    rewrite Hlen, length_app. simpl. lia.
Qed.

Lemma resample_keeps_form (samples : list (particle R)) (N : Z)
    (algorithm : string) (g : G) :
  sum_weights samples = 1 ->
  (1 <= N)%Z ->
  known_algorithm algorithm ->
  exists (out : list (particle R)) (g' : G),
    resample samples N algorithm g = (Ok (Some out), g')
    /\ List.length out = Z.to_nat N
    /\ Forall (resampled samples N) out.
Proof.
  intros Hsum HN Halg. unfold resample, bind_rand, ret.
  destruct Halg as [-> | ->]; cbn [String.eqb Ascii.eqb Bool.eqb].
  - unfold multinomial.
    destruct (@multinomial_loop_total G RS uniform_below samples Hsum N
                (Z.to_nat N) [] g (Forall_nil _))
      as (out & g' & Hrun & Hlen & Hout).
    rewrite Hrun. exists out, g'. split; [reflexivity|].
    split; [exact Hlen | exact Hout].
  - unfold stratified.
    destruct (@stratified_loop_total G RS uniform_below samples Hsum N
                (Z.to_nat N) 0%Z [] g ltac:(lia) ltac:(lia) (Forall_nil _))
      as (out & g' & Hrun & Hlen & Hout).
    rewrite Hrun. exists out, g'. split; [reflexivity|].
    split; [exact Hlen | exact Hout].
Qed.

Lemma update_cycle (ps : list (particle R)) (g : G) :
  particles self = Some ps ->
  ps <> [] ->
  Forall (fun p => 0 <= fst p) ps ->
  (1 <= n_particles self)%Z ->
  known_algorithm (resampling_algorithm self) ->
  exists (g' : G) (ps' : list (particle R)),
    update self robot_forward_motion robot_angular_motion measurements
      landmarks g = (Ok (set_particles self (Some ps')), g')
    /\ well_formed self ps'
    /\ (List.length ps' = List.length ps
        \/ List.length ps' = Z.to_nat (n_particles self)).
Proof.
  intros Hp Hne Hw HN Halg. unfold update, bind_rand, lift. rewrite Hp.
  destruct (@update_loop_keeps_form ps [] g Hw (Forall_nil _))
    as (new_particles & g1 & Hloop & Hlen1 & Hform1).
  rewrite Hloop. cbn [List.length Nat.add] in Hlen1.
  assert (Hne1 : new_particles <> []).
  { intros ->. cbn [List.length] in Hlen1. destruct ps; [congruence | discriminate]. }
  destruct (normalize_weights_keeps_form (in_world self) Hne1 Hform1)
    as (normalized & Hnorm & Hlen2 & Hsum & Hform2).
  rewrite Hnorm.
  destruct (@triggers_do_not_raise (set_particles self (Some normalized))
              normalized eq_refl Hsum) as (b & Hb).
  rewrite Hb. destruct b.
  - cbn [set_particles n_particles resampling_algorithm].
    destruct (@resample_keeps_form normalized (n_particles self)
                (resampling_algorithm self) g1 Hsum HN Halg)
      as (out & g2 & Hres & Hlen3 & Hout).
    rewrite Hres. unfold ret.
    exists g2, out. split; [reflexivity|]. split; [|right; exact Hlen3].
    assert (Hshare : Forall (fun p : particle R =>
                               fst p = fdiv one (of_int (n_particles self))) out).
    { eapply Forall_impl; [|exact Hout]. intros p [Hfst _]. exact Hfst. }
    split; [|split].
    + intros ->. cbn [List.length] in Hlen3. lia.
    + rewrite (sum_weights_of_equal_weights Hshare), Hlen3.
      now apply count_times_share.
    + rewrite Forall_forall in *. intros p Hin.
      destruct (Hout p Hin) as [Hfst Hsnd]. split.
      * rewrite Hfst. unfold one. arith.
        assert (0 < IZR (n_particles self)) by (apply IZR_lt; lia).
        apply Rlt_le, Rdiv_lt_0_compat; lra.
      * apply in_map_iff in Hsnd. destruct Hsnd as (q & Hq & Hqin).
        rewrite <- Hq. exact (proj2 (Hform2 q Hqin)).
  - exists g1, normalized. split; [reflexivity|].
    split; [|left; congruence].
    split; [|split; [exact Hsum | exact Hform2]].
    intros ->. cbn [List.length] in Hlen2.
    destruct new_particles; [congruence | discriminate].
Qed.

(** X17.  One call of [update] keeps the particle set well-formed.  On a
    non-empty set of particles whose weights are not negative, with a
    measurement for every landmark, measurement noise that is not zero,
    positive upper limits, a particle count of at least 1 and one of the
    two algorithm names, [update] raises nothing in any of the three
    classes; the particle set it leaves has weights that are not negative
    and sum to 1 and states inside the world; it holds as many particles as
    before or, after a resampling, as the particle count; and no other
    attribute of the filter changes. *)
Theorem update_keeps_the_particle_set_well_formed
    (ps : list (particle R)) (g : G) :
  particles self = Some ps ->
  ps <> [] ->
  Forall (fun p => 0 <= fst p) ps ->
  (1 <= n_particles self)%Z ->
  known_algorithm (resampling_algorithm self) ->
  exists (self' : ParticleFilter R) (g' : G) (ps' : list (particle R)),
    update self robot_forward_motion robot_angular_motion measurements
      landmarks g = (Ok self', g')
    /\ particles self' = Some ps'
    /\ same_configuration self self'
    /\ well_formed self' ps'
    /\ (List.length ps' = List.length ps
        \/ List.length ps' = Z.to_nat (n_particles self)).
Proof.
  intros Hp Hne Hw HN Halg.
  destruct (update_cycle g Hp Hne Hw HN Halg) as (g' & ps' & Hrun & Hwf & Hlen).
  exists (set_particles self (Some ps')), g', ps'.
  split; [exact Hrun|]. split; [reflexivity|]. split; [repeat split|].
  split; [exact Hwf | exact Hlen].
Qed.

Lemma update_loop_returns (ps : list (particle R)) :
  forall (acc : list (particle R)) (g : G),
    exists (out : list (particle R)) (g' : G),
      update_loop self ps robot_forward_motion robot_angular_motion
        measurements landmarks acc g = (Ok out, g').
Proof.
  induction ps as [|par rest IH]; intros acc g; cbn [update_loop].
  - exists acc, g. reflexivity.
  - unfold bind_rand, lift.
    destruct (propagate_sample_Q self (snd par) robot_forward_motion
                robot_angular_motion (lit 7 100, lit 7 100, lit 1 10) g)
      as [s g1].
    destruct (@likelihood_loop_enough R _ _ self s measurements landmarks
                0%nat one enough_measurements) as [[l Hl] _].
    unfold compute_likelihood. rewrite Hl. apply IH.
Qed.

Lemma normalize_weights_returns (ws : list (particle R)) :
  exists out : list (particle R), normalize_weights ws = Ok out.
Proof.
  destruct ws as [|p ws'].
  - exists []. apply normalize_weights_nil.
  - set (ws := p :: ws').
    assert (Hlen : 0 < IZR (Z.of_nat (List.length ws)))
      by (apply of_nat_pos; simpl; lia).
    unfold normalize_weights.
    destruct (fltb (sum_weights ws) (lit 1 10000000)) eqn:Hlt.
    + rewrite comprehension_reinitialize by (simpl; lia).
      eexists. reflexivity.
    + apply ltb_false in Hlt. arith.
      rewrite comprehension_divide_nonzero by lra. eexists. reflexivity.
Qed.

(** X18.  With the trigger of [ParticleFilterSIR] and an algorithm name
    that is neither ['MULTINOMIAL'] nor ['STRATIFIED'], [update] raises
    nothing but leaves the filter without particles ([None]): after it
    [get_average_state] raises [TypeError], and so does the next [update],
    before any draw. *)
Theorem update_with_an_unknown_algorithm_name
    (ps : list (particle R)) (g : G) :
  particles self = Some ps ->
  class self = ParticleFilterSIR ->
  ~ known_algorithm (resampling_algorithm self) ->
  exists g' : G,
    update self robot_forward_motion robot_angular_motion measurements
      landmarks g = (Ok (set_particles self None), g')
    /\ get_average_state (set_particles self None) = Raise TypeError
    /\ forall (forward angular : R) (ms lms : list (R * R)) (g2 : G),
         update (set_particles self None) forward angular ms lms g2
         = (Raise TypeError, g2).
Proof.
  intros Hp Hc Halg. unfold update at 1. unfold bind_rand, lift. rewrite Hp.
  destruct (update_loop_returns ps [] g) as (new_particles & g1 & Hloop).
  rewrite Hloop.
  destruct (normalize_weights_returns new_particles) as (normalized & Hnorm).
  rewrite Hnorm. unfold needs_resampling.
  cbn [set_particles particles class]. rewrite Hc.
  unfold SIR_needs_resampling, resample.
  cbn [set_particles resampling_algorithm].
  destruct (String.eqb_spec (resampling_algorithm self) "MULTINOMIAL")
    as [HM|_]; [exfalso; apply Halg; now left|].
  destruct (String.eqb_spec (resampling_algorithm self) "STRATIFIED")
    as [HS|_]; [exfalso; apply Halg; now right|].
  unfold ret. exists g1. split; [reflexivity|]. split; [reflexivity|].
  intros forward angular ms lms g2. reflexivity.
Qed.

End Cycle.

(** *** The loop of the demonstration *)

Lemma set_particles_same (self : ParticleFilter R)
    (ps : option (list (particle R))) :
  particles self = ps -> set_particles self ps = self.
Proof. intros <-. destruct self. reflexivity. Qed.

Section Demonstration.

Context {G : Type} {RS : RandomSource R G}.

(** numpy documents the draws of [uniform(low, high)] as taken from the
    half-open interval [[low, high)]. *)
Hypothesis uniform_below :
  forall (lo hi : R) (g : G), fst (uniform lo hi g) < hi.

Variable self : ParticleFilter R.
Variable lms : list (R * R).
Variables size_x size_y : R.

Hypothesis x_max_positive : 0 < x_max self.
Hypothesis y_max_positive : 0 < y_max self.
Hypothesis distance_noise : fst (measurement_noise self) <> 0.
Hypothesis angle_noise : snd (measurement_noise self) <> 0.
Hypothesis at_least_one_particle : (1 <= n_particles self)%Z.
Hypothesis algorithm_is_known : known_algorithm (resampling_algorithm self).

Lemma time_step_cycle (robot : Robot R) (ps : list (particle R))
    (distance rotation : R) (g : G) :
  well_formed self ps ->
  exists (robot' : Robot R) (ps' : list (particle R)) (g' : G),
    time_step lms size_x size_y robot (set_particles self (Some ps))
      distance rotation g
    = (Ok (robot', set_particles self (Some ps'), average_state ps'), g')
    /\ well_formed self ps'.
Proof.
  intros (Hne & Hsum & Hall). unfold time_step.
  destruct (move robot distance rotation size_x size_y g) as [robot' g1].
  pose proof (@measure_loop_length R _ _ G RS robot' lms [] g1) as Hlen.
  fold (measure robot' lms g1) in Hlen.
  destruct (measure robot' lms g1) as [measurements g2].
  cbn [fst List.length Nat.add] in Hlen.
  assert (Hw : Forall (fun p : particle R => 0 <= fst p) ps).
  { eapply Forall_impl; [|exact Hall]. intros p [Hp _]. exact Hp. }
  destruct (@update_cycle G RS uniform_below (set_particles self (Some ps))
              distance rotation measurements lms x_max_positive y_max_positive
              distance_noise angle_noise ltac:(lia) ps g2 eq_refl Hne Hw
              at_least_one_particle algorithm_is_known)
    as (g3 & ps' & Hrun & Hwf & _).
  change (set_particles (set_particles self (Some ps)) (Some ps'))
    with (set_particles self (Some ps')) in Hrun.
  rewrite Hrun. exists robot', ps', g3. split; [reflexivity | exact Hwf].
Qed.

Lemma simulate_cycles (motions : list (R * R)) :
  forall (robot : Robot R) (ps : list (particle R))
         (shown : list (state R)) (g : G),
    well_formed self ps ->
    Forall (in_world self) shown ->
    exists (robot' : Robot R) (ps' : list (particle R))
           (estimates : list (state R)) (g' : G),
      simulate lms size_x size_y motions robot
        (set_particles self (Some ps)) shown g
      = (Ok (robot', set_particles self (Some ps'), estimates), g')
      /\ List.length estimates = (List.length shown + List.length motions)%nat
      /\ Forall (in_world self) estimates
      /\ well_formed self ps'.
Proof.
  induction motions as [|[distance rotation] rest IH];
    intros robot ps shown g Hwf Hshown; cbn [simulate].
  - exists robot, ps, shown, g. split; [reflexivity|].
    split; [simpl; lia|]. split; [exact Hshown | exact Hwf].
  - destruct (time_step_cycle robot distance rotation g Hwf)
      as (robot1 & ps1 & g1 & Hstep & Hwf1).
    rewrite Hstep.
    destruct (IH robot1 ps1 (shown ++ [average_state ps1]) g1 Hwf1)
      as (robot' & ps' & estimates & g' & Hrun & Hlen & Hest & Hwf').
    { apply Forall_app. split; [exact Hshown|]. constructor; [|constructor].
      now apply average_state_in_world. }
    exists robot', ps', estimates, g'. split; [exact Hrun|].
    split; [|split; [exact Hest | exact Hwf']].
    rewrite Hlen, length_app. simpl. lia.
Qed.

(** X19.  The loop of the demonstration never raises.  Started on a
    well-formed particle set, with positive upper limits, measurement
    noise that is not zero, a particle count of at least 1 and one of the
    two algorithm names, any number of time steps (the robot moves and
    measures all landmarks, the filter is updated, the estimate is read)
    runs to its end for every sequence of motions and every robot; each
    estimate displayed is a state inside the world, and the filter ends
    with a well-formed particle set and its other attributes unchanged. *)
Theorem simulation_never_raises (motions : list (R * R)) (robot : Robot R)
    (ps : list (particle R)) (g : G) :
  particles self = Some ps ->
  well_formed self ps ->
  exists (robot' : Robot R) (self' : ParticleFilter R)
         (estimates : list (state R)) (g' : G) (ps' : list (particle R)),
    simulate lms size_x size_y motions robot self [] g
    = (Ok (robot', self', estimates), g')
    /\ List.length estimates = List.length motions
    /\ Forall (in_world self) estimates
    /\ same_configuration self self'
    /\ particles self' = Some ps'
    /\ well_formed self' ps'.
Proof.
  intros Hp Hwf.
  destruct (@simulate_cycles motions robot ps [] g Hwf (Forall_nil _))
    as (robot' & ps' & estimates & g' & Hrun & Hlen & Hest & Hwf').
  rewrite (set_particles_same self Hp) in Hrun.
  exists robot', (set_particles self (Some ps')), estimates, g', ps'.
  split; [exact Hrun|]. split; [exact Hlen|]. split; [exact Hest|].
  split; [repeat split|]. split; [reflexivity | exact Hwf'].
Qed.

End Demonstration.

End ExactCycle.

(** * The properties of the cycle at concrete inputs *)

Module CycleWitnesses.

Import ExactProperties.

Local Open Scope R_scope.

Lemma midpoint_source_in_range (lo hi : R) (g : unit) :
  lo < hi -> lo <= fst (uniform lo hi g) < hi.
Proof.
  intros H. cbn [uniform midpoint_source fst].
  destruct (Rlt_dec lo hi); lra.
Qed.

Lemma demo_limits :
  0 < x_max (demo_filter (F := R)) /\ 0 < y_max (demo_filter (F := R)).
Proof. cbn [demo_filter x_max y_max]. arith. lra. Qed.

Lemma demo_noise :
  fst (measurement_noise (demo_filter (F := R))) <> 0
  /\ snd (measurement_noise (demo_filter (F := R))) <> 0.
Proof. cbn [demo_filter measurement_noise]. arith. split; intros H; lra. Qed.

Lemma origin_in_the_demo_world (r : option (list (particle R))) :
  in_world (set_particles demo_filter r) origin.
Proof.
  unfold in_world, origin, zero. cbn [set_particles demo_filter x_max y_max].
  arith. pose proof PI_RGT_0. repeat split; lra.
Qed.

Lemma one_particle_is_well_formed (r : option (list (particle R))) :
  well_formed (set_particles demo_filter r) [(1, origin)].
Proof.
  split; [discriminate|]. split.
  - unfold sum_weights, zero. cbn [fold_left]. arith. lra.
  - constructor; [|constructor]. cbn [fst snd]. split; [lra|].
    apply origin_in_the_demo_world.
Qed.

Lemma update_of_an_empty_particle_set_witness :
  update (set_particles (demo_filter (F := R)) (Some [])) 0 0 [] [] tt
  = (Raise ZeroDivisionError, tt).
Proof.
  destruct (@update_of_an_empty_particle_set R _ _ unit _
              (set_particles demo_filter (Some [])) 0 0 [] [] tt eq_refl)
    as [H _].
  apply H. discriminate.
Defined.

Lemma triggers_on_normalized_weights_witness :
  exists b : bool,
    needs_resampling (set_particles (demo_filter (F := R)) (Some [(1, origin)]))
    = Ok b.
Proof.
  destruct (@ExactCycle.triggers_on_normalized_weights
              (set_particles demo_filter (Some [(1, origin)])) [(1, origin)]
              eq_refl (proj1 (proj2 (one_particle_is_well_formed None))))
    as (b & Hb & _).
  exists b. exact Hb.
Defined.

Lemma likelihood_is_positive_and_at_most_one_witness :
  exists l : R,
    compute_likelihood (demo_filter (F := R)) origin [(1, 1)] [(0, 0)] = Ok l
    /\ 0 < l <= 1.
Proof.
  apply (@ExactCycle.likelihood_is_positive_and_at_most_one
           demo_filter origin [(1, 1)] [(0, 0)]
           (proj1 demo_noise) (proj2 demo_noise)).
  simpl. lia.
Defined.

Lemma measurement_without_noise_has_likelihood_one_witness :
  let robot : Robot R :=
    {| robot_x := 10; robot_y := 10; robot_theta := 0;
       std_forward := 0; std_turn := 0;
       std_meas_distance := 0; std_meas_angle := 0 |} in
  compute_likelihood (demo_filter (F := R)) (robot_state robot)
    (fst (@measure R _ _ unit noiseless_source robot [(1, 1); (19, 1)] tt))
    [(1, 1); (19, 1)]
  = Ok 1.
Proof.
  intros robot.
  apply (@ExactCycle.measurement_without_noise_has_likelihood_one
           unit noiseless_source (fun mu sigma g => eq_refl)
           demo_filter robot [(1, 1); (19, 1)] tt
           (proj1 demo_noise) (proj2 demo_noise)).
Defined.

Lemma get_average_state_stays_in_the_world_witness :
  exists s : state R,
    get_average_state
      (set_particles (demo_filter (F := R)) (Some [(1, origin)])) = Ok s
    /\ in_world (set_particles demo_filter (Some [(1, origin)])) s.
Proof.
  apply (@ExactCycle.get_average_state_stays_in_the_world
           (set_particles demo_filter (Some [(1, origin)])) [(1, origin)]
           eq_refl (one_particle_is_well_formed _)).
Defined.

Lemma validate_state_fixes_the_world_witness :
  validate_state (demo_filter (F := R)) (validate_state demo_filter unit_state)
  = validate_state demo_filter unit_state.
Proof.
  apply (@ExactCycle.validate_state_fixes_the_world demo_filter unit_state
           (proj1 demo_limits) (proj2 demo_limits)).
Defined.

Lemma motion_stays_in_the_world_witness :
  in_world (demo_filter (F := R))
    (fst (propagate_sample demo_filter unit_state 3 1 tt)).
Proof.
  apply (@ExactCycle.motion_stays_in_the_world unit _ demo_filter unit_state
           {| robot_x := 10; robot_y := 10; robot_theta := 0;
              std_forward := 0; std_turn := 0;
              std_meas_distance := 0; std_meas_angle := 0 |}
           3 1 (0, 0, 0) tt (proj1 demo_limits) (proj2 demo_limits)).
Defined.

Lemma initial_particles_are_well_formed_witness :
  exists (self' : ParticleFilter R) (ps : list (particle R)),
    fst (particle_initialize_uniform_original_state_unknown
           (demo_filter (F := R)) tt) = Ok self'
    /\ particles self' = Some ps
    /\ well_formed self' ps.
Proof.
  destruct (@ExactCycle.initial_particles_are_well_formed unit _
              midpoint_source_in_range demo_filter tt)
    as (self' & g' & ps & Hrun & Hp & _ & Hwf & _).
  - cbn [demo_filter n_particles]. lia.
  - cbn [demo_filter x_min x_max]. arith. lra.
  - cbn [demo_filter y_min y_max]. arith. lra.
  - exists self', ps. rewrite Hrun. split; [reflexivity|].
    split; [exact Hp | exact Hwf].
Defined.

Lemma known_pose_is_the_first_estimate_witness :
  exists self' : ParticleFilter R,
    particle_initialize_uniform_original_state_known
      (demo_filter (F := R)) origin = Ok self'
    /\ get_average_state self' = Ok origin.
Proof.
  destruct (@ExactCycle.known_pose_is_the_first_estimate demo_filter origin)
    as (self' & ps & Hrun & _ & _ & _ & Havg).
  - cbn [demo_filter n_particles]. lia.
  - exact (origin_in_the_demo_world None).
  - exists self'. split; [exact Hrun | exact Havg].
Defined.

Lemma resample_selects_positive_weights_witness :
  Forall (fun p : particle R =>
            exists q, In q [(0, origin); (1, unit_state)]
                      /\ snd q = snd p /\ 0 < fst q)
    [(fdiv one (of_int 1), unit_state)].
Proof.
  apply (@ExactCycle.resample_selects_positive_weights unit noiseless_source
           (fun lo hi g Hlo Hhi => Hlo)
           [(0, origin); (1, unit_state)] 1%Z "MULTINOMIAL"
           [(fdiv one (of_int 1), unit_state)] tt tt).
  unfold resample. cbn [String.eqb Ascii.eqb Bool.eqb].
  unfold multinomial. change (Z.to_nat 1) with 1%nat.
  cbn [multinomial_loop map cumsum cumsum_from fst snd].
  unfold bind_rand, draw, lift, ret, naive_search.
  cbn [uniform noiseless_source naive_search_from].
  arith.
  replace (Exact.ltb 0 (1 / 10000000000)) with true
    by (symmetry; apply ltb_true; lra).
  replace (Exact.ltb (0 + 1) (1 / 10000000000)) with false
    by (symmetry; apply ltb_false; lra).
  reflexivity.
Defined.

Lemma update_keeps_the_particle_set_well_formed_witness :
  exists (self' : ParticleFilter R) (ps' : list (particle R)),
    fst (update (set_particles (demo_filter (F := R)) (Some [(1, origin)]))
           3 1 [(1, 1); (2, 2)] [(1, 1)] tt) = Ok self'
    /\ particles self' = Some ps'
    /\ well_formed self' ps'.
Proof.
  destruct (@ExactCycle.update_keeps_the_particle_set_well_formed unit _
              Witnesses.midpoint_source_below
              (set_particles demo_filter (Some [(1, origin)]))
              3 1 [(1, 1); (2, 2)] [(1, 1)]
              (proj1 demo_limits) (proj2 demo_limits)
              (proj1 demo_noise) (proj2 demo_noise))
    with (ps := [(1, origin)] : list (particle R)) (g := tt)
    as (self' & g' & ps' & Hrun & Hp & _ & Hwf & _).
  - simpl. lia.
  - reflexivity.
  - discriminate.
  - constructor; [|constructor]. cbn [fst]. lra.
  - cbn [set_particles demo_filter n_particles]. lia.
  - right. reflexivity.
  - exists self', ps'. rewrite Hrun. split; [reflexivity|].
    split; [exact Hp | exact Hwf].
Defined.

Lemma update_with_an_unknown_algorithm_name_witness :
  let self : ParticleFilter R :=
    {| n_particles := 2;
       x_min := 0; x_max := 20; y_min := 0; y_max := 20;
       process_noise := (1, 1); measurement_noise := (1, 1);
       resampling_algorithm := "SYSTEMATIC";
       class := ParticleFilterSIR;
       particles := Some [(1, origin)] |} in
  exists g' : unit,
    update self 3 1 [(1, 1)] [(1, 1)] tt = (Ok (set_particles self None), g').
Proof.
  intros self.
  destruct (@ExactCycle.update_with_an_unknown_algorithm_name unit _
              self 3 1 [(1, 1)] [(1, 1)])
    with (ps := [(1, origin)] : list (particle R)) (g := tt)
    as (g' & Hrun & _).
  - simpl. lia.
  - reflexivity.
  - reflexivity.
  - intros [H | H]; discriminate H.
  - exists g'. exact Hrun.
Defined.

Lemma process_models_follow_the_robot_witness :
  let robot : Robot R :=
    {| robot_x := 10; robot_y := 10; robot_theta := 0;
       std_forward := 0; std_turn := 0;
       std_meas_distance := 0; std_meas_angle := 0 |} in
  robot_state
    (fst (@move R _ _ unit noiseless_source robot 3 1
            (x_max demo_filter) (y_max demo_filter) tt))
  = fst (@propagate_sample R _ _ unit noiseless_source demo_filter
           (robot_state robot) 3 1 tt).
Proof.
  intros robot.
  exact (proj2 (@process_models_follow_the_robot R _ _ unit noiseless_source
                  (fun mu sigma g => eq_refl) (fun mean cov g => eq_refl)
                  demo_filter robot 3 1 (0, 0, 0) tt tt tt)).
Defined.

Lemma simulation_never_raises_witness :
  let robot : Robot R :=
    {| robot_x := 10; robot_y := 10; robot_theta := 0;
       std_forward := 0; std_turn := 0;
       std_meas_distance := 0; std_meas_angle := 0 |} in
  exists (robot' : Robot R) (self' : ParticleFilter R)
         (estimates : list (state R)),
    fst (simulate [(1, 1); (19, 19)] 20 20 [(3, 1); (-2, 0)] robot
           (set_particles demo_filter (Some [(1, origin)])) [] tt)
    = Ok (robot', self', estimates)
    /\ List.length estimates = 2%nat.
Proof.
  intros robot.
  destruct (@ExactCycle.simulation_never_raises unit _
              Witnesses.midpoint_source_below
              (set_particles demo_filter (Some [(1, origin)]))
              [(1, 1); (19, 19)] 20 20
              (proj1 demo_limits) (proj2 demo_limits)
              (proj1 demo_noise) (proj2 demo_noise))
    with (motions := [(3, 1); (-2, 0)] : list (R * R)) (robot := robot)
         (ps := [(1, origin)] : list (particle R)) (g := tt)
    as (robot' & self' & estimates & g' & ps' & Hrun & Hlen & _).
  - cbn [set_particles demo_filter n_particles]. lia.
  - right. reflexivity.
  - reflexivity.
  - apply one_particle_is_well_formed.
  - exists robot', self', estimates. rewrite Hrun.
    split; [reflexivity | exact Hlen].
Defined.

End CycleWitnesses.
